(** * Bet-slip verification handlers: scoring and aggregation

    A shallow embedding of the three [verify-slip] serverless handlers of
    the backend (the placeholder verifier, the Sightengine-backed verifier
    and the canvas-backed verifier) together with the properties of their
    scoring logic.

    Conventions of the embedding:
    - a JavaScript number that is an integer (scores, penalties, HTTP
      status codes) is a [Z];
    - a JavaScript number that is a fraction (a [Math.random()] draw, a
      score of the detection service) is the exact rational value of the
      double, a [Q]; a decimal literal of the source denotes the rational
      value of the double it is read as;
    - a property that may be [undefined] is an [option];
    - a computation that may throw and that consumes random draws lives in
      the monad [JS]. *)

From Stdlib Require Import ZArith QArith Qround Qpower String Ascii List Bool Lia Lqa.
From Stdlib Require Import Permutation DecimalString.
Import ListNotations.

Local Open Scope string_scope.
Local Open Scope Z_scope.

(** ** JavaScript values used by the handlers *)

(** Truthiness of a string-valued property: [undefined] and the empty
    string are falsy. *)
Definition truthy (v : option string) : bool :=
  match v with
  | Some s => negb (s =? "")%string
  | None => false
  end.

(** [a || d] for a string-valued property [a] and a string [d]. *)
Definition or_else (a : option string) (d : string) : string :=
  if truthy a then match a with Some s => s | None => d end else d.

(** Text of [${v}] inside a template literal. *)
Definition interpolate (v : option string) : string :=
  match v with
  | Some s => s
  | None => "undefined"
  end.

(** Text of [${n}] for an integer [n]. *)
Definition Number_toString (n : Z) : string :=
  NilZero.string_of_int (Z.to_int n).

(** [arr[i]] for an integer index: [undefined] outside the array. *)
Definition index {A : Type} (arr : list A) (i : Z) : option A :=
  if i <? 0 then None else nth_error arr (Z.to_nat i).

(** [arr.push(x)] *)
Definition push {A : Type} (arr : list A) (x : A) : list A :=
  (arr ++ [x])%list.

(** [Math.floor] of a fraction. *)
Definition Math_floor (x : Q) : Z := Qfloor x.

(** [x > y] on fractions. *)
Definition gt (x y : Q) : bool := negb (Qle_bool x y).

(** [x < y] on fractions. *)
Definition lt (x y : Q) : bool := negb (Qle_bool y x).

(** [Math.max], [Math.min] and [Math.round] on integers (rounding an
    integer leaves it unchanged). *)
Definition Math_max (a b : Z) : Z := Z.max a b.
Definition Math_min (a b : Z) : Z := Z.min a b.
Definition Math_round (a : Z) : Z := a.

(** The doubles denoted by the decimal literals of the source. *)
Definition lit_0_8 : Q := 3602879701896397 # 4503599627370496.
Definition lit_0_7 : Q := 3152519739159347 # 4503599627370496.
Definition lit_0_5 : Q := 1 # 2.
Definition lit_0_4 : Q := 3602879701896397 # 9007199254740992.
Definition lit_0_3 : Q := 5404319552844595 # 18014398509481984.

(** *** The rounding of a product

    A product of two doubles is the double nearest to the exact product,
    ties going to the even significand. The product by 4 of the placeholder
    and canvas template checks is exact on doubles and is written without
    rounding; the product by 5 of the Sightengine handler is not, and is
    rounded by [to_double]. *)

(** The exponent of the binade of a positive number [x]: the [e] with
    [2^e <= x < 2^(e+1)]. The difference of the binary logarithms of the
    numerator and of the denominator is [e] or [e + 1]. *)
Definition binade (x : Q) : Z :=
  let e0 := Z.log2 (Qnum x) - Z.log2 (Zpos (Qden x)) in
  if Qle_bool (2 ^ e0) x then e0 else e0 - 1.

(** The integer nearest to [y], the even one of the two at a tie. *)
Definition round_half_even (y : Q) : Z :=
  let f := Qfloor y in
  match (y - inject_Z f ?= 1 # 2)%Q with
  | Lt => f
  | Gt => f + 1
  | Eq => if Z.even f then f else f + 1
  end.

(** The double nearest to a positive number below the overflow threshold:
    a multiple of the unit in the last place of its binade (53 significant
    bits; the binades below [2^-1022] share the subnormal unit). *)
Definition nearest (x : Q) : Q :=
  let e := Z.max (binade x) (-1022) in
  let ulp := (2 ^ (e - 52))%Q in
  (inject_Z (round_half_even (x / ulp)) * ulp)%Q.

(** The double nearest to [x]. *)
Definition to_double (x : Q) : Q :=
  match Qnum x with
  | 0 => 0%Q
  | Zpos _ => nearest x
  | Zneg _ => (- nearest (- x))%Q
  end.

Arguments nearest : simpl never.
Arguments to_double : simpl never.

(** The largest double below 1, [1 - 2^-53]. *)
Definition below_one : Q := 9007199254740991 # 9007199254740992.

(** ** Exceptions and the random source *)

Record Error := { message : string }.

Inductive Completion (A : Type) : Type :=
| Normal (a : A)
| Throw (e : Error).
Arguments Normal {A} a.
Arguments Throw {A} e.

(** The part of the runtime the handlers consume: what each successive
    call of [Math.random] does, and how many calls have been made. The
    checks of the source are stand-ins for detectors that may fail, and
    their only effect is a call of [Math.random]; so that the [catch]
    blocks written for those failures can be exercised, a call either
    returns a number or fails. *)
Record Runtime := {
  random_feed : nat -> Completion Q;
  drawn : nat
}.

Definition JS (A : Type) : Type := Runtime -> Completion A * Runtime.

Definition ret {A : Type} (a : A) : JS A := fun w => (Normal a, w).

Definition bind {A B : Type} (m : JS A) (k : A -> JS B) : JS B :=
  fun w =>
    match m w with
    | (Normal a, w') => k a w'
    | (Throw e, w') => (Throw e, w')
    end.

Definition throw {A : Type} (e : Error) : JS A := fun w => (Throw e, w).

(** [try { m } catch (e) { h e }]: draws made before the failure stay
    consumed. *)
Definition try_catch {A : Type} (m : JS A) (h : Error -> JS A) : JS A :=
  fun w =>
    match m w with
    | (Normal a, w') => (Normal a, w')
    | (Throw e, w') => h e w'
    end.

Definition Math_random : JS Q :=
  fun w =>
    (random_feed w (drawn w),
     {| random_feed := random_feed w; drawn := S (drawn w) |}).

Declare Scope js_scope.
Delimit Scope js_scope with js.
Notation "x <- m ;; k" := (bind m (fun x => k))
  (at level 100, m at next level, right associativity) : js_scope.
Local Open Scope js_scope.

(** ** Requests, findings and responses *)

Record Body := {
  file : option string;
  image : option string
}.

Record Upload := { upload_data : option string }.

Record Files := { files_file : option Upload }.

Record Request := {
  method : string;
  body : option Body;
  files : option Files
}.

(** [req.body && req.body.file] *)
Definition body_file (req : Request) : option string :=
  match body req with
  | Some b => file b
  | None => None
  end.

(** [req.files && req.files.file] *)
Definition files_upload (req : Request) : option Upload :=
  match files req with
  | Some fs => files_file fs
  | None => None
  end.

Record Finding := {
  category : string;
  status : string;
  detail : string
}.

(** What a check returns: [{ finding, penalty, detectedSportsbook }]; the
    last property is absent from the objects of three of the checks. *)
Record AnalysisResult := {
  finding : Finding;
  penalty : Z;
  detectedSportsbook : option string
}.

(** The JSON document of the detection service, as far as the handler
    reads it. *)
Record TypeInfo := { ai_generated : option Q }.
Record QualityInfo := { score : option Q }.
Record SightengineData := {
  type : option TypeInfo;
  quality : option QualityInfo;
  faces : option (list unit)
}.

Record VerificationReport := {
  verdict : string;
  confidence : Z;
  findings : list Finding;
  sportsbook : option string;
  rawData : option SightengineData
}.

Inductive Payload : Type :=
| ErrorPayload (error : string) (msg : option string)
| ReportPayload (report : VerificationReport).

(** [res.status(code).json(payload)] *)
Record Response := {
  statusCode : Z;
  json : Payload
}.

Definition res_status_json (code : Z) (payload : Payload) : Response :=
  {| statusCode := code; json := payload |}.

(** ** The placeholder verifier (Api/verify-slip.js) *)

Module Placeholder.

Definition checkMetadata : JS AnalysisResult :=
  r <- Math_random ;;
  let hasEditingSoftware := gt r lit_0_8 in
  if hasEditingSoftware then
    ret {| finding := {| category := "Metadata";
                         status := "negative";
                         detail := "Image shows signs of editing software usage." |};
           penalty := 30;
           detectedSportsbook := None |}
  else
    ret {| finding := {| category := "Metadata";
                         status := "neutral";
                         detail := "No strong metadata indicators found." |};
           penalty := 0;
           detectedSportsbook := None |}.

Definition checkCompression : JS AnalysisResult :=
  r <- Math_random ;;
  let hasIrregularCompression := gt r lit_0_7 in
  if hasIrregularCompression then
    ret {| finding := {| category := "Compression Anomaly";
                         status := "negative";
                         detail := "Irregular compression detected near critical regions." |};
           penalty := 25;
           detectedSportsbook := None |}
  else
    ret {| finding := {| category := "Compression";
                         status := "positive";
                         detail := "Compression artifacts appear uniform across image." |};
           penalty := 0;
           detectedSportsbook := None |}.

Definition checkFonts : JS AnalysisResult :=
  r <- Math_random ;;
  let hasInconsistentFonts := gt r lit_0_8 in
  if hasInconsistentFonts then
    ret {| finding := {| category := "Font Mismatch";
                         status := "negative";
                         detail := "Multiple font styles detected where uniform font is expected." |};
           penalty := 20;
           detectedSportsbook := None |}
  else
    ret {| finding := {| category := "Font Consistency";
                         status := "positive";
                         detail := "Fonts appear consistent with known sportsbook typography." |};
           penalty := 0;
           detectedSportsbook := None |}.

Definition knownSportsbooks : list string :=
  ["FanDuel"; "DraftKings"; "BetMGM"; "Caesars"].

Definition checkTemplate : JS AnalysisResult :=
  r1 <- Math_random ;;
  let detected :=
    index knownSportsbooks
          (Math_floor (r1 * inject_Z (Z.of_nat (length knownSportsbooks)))) in
  r2 <- Math_random ;;
  let matchesTemplate := gt r2 lit_0_3 in
  if matchesTemplate then
    ret {| finding := {| category := "Layout Match";
                         status := "positive";
                         detail := "Slip layout matches known "
                                     ++ interpolate detected ++ " template." |};
           penalty := 0;
           detectedSportsbook := detected |}
  else
    ret {| finding := {| category := "Template Drift";
                         status := "negative";
                         detail := "Spacing and layout differ from known sportsbook templates." |};
           penalty := 25;
           detectedSportsbook := Some "Unknown" |}.

(** The body of [handler], with the four checks it calls as parameters. *)
Section Engine.

Variables checkMetadata' checkCompression' checkFonts' checkTemplate'
  : JS AnalysisResult.

Definition engine (req : Request) : JS Response :=
  if negb (method req =? "POST")%string then
    ret (res_status_json 405 (ErrorPayload "Method not allowed" None))
  else
    try_catch
      (let findings0 : list Finding := [] in
       let legitimacyScore0 := 100 in
       metadataCheck <- checkMetadata' ;;
       let findings1 := push findings0 (finding metadataCheck) in
       let legitimacyScore1 := legitimacyScore0 - penalty metadataCheck in
       compressionCheck <- checkCompression' ;;
       let findings2 := push findings1 (finding compressionCheck) in
       let legitimacyScore2 := legitimacyScore1 - penalty compressionCheck in
       fontCheck <- checkFonts' ;;
       let findings3 := push findings2 (finding fontCheck) in
       let legitimacyScore3 := legitimacyScore2 - penalty fontCheck in
       templateCheck <- checkTemplate' ;;
       let findings4 := push findings3 (finding templateCheck) in
       let legitimacyScore4 := legitimacyScore3 - penalty templateCheck in
       let confidence := Math_max 0 (Math_min 100 legitimacyScore4) in
       let verdict :=
         if 70 <=? confidence then "Likely Legitimate" else "Likely Fabricated" in
       ret (res_status_json 200
              (ReportPayload
                 {| verdict := verdict;
                    confidence := Math_round confidence;
                    findings := findings4;
                    sportsbook :=
                      Some (or_else (detectedSportsbook templateCheck) "Unknown");
                    rawData := None |})))
      (fun error =>
         ret (res_status_json 500
                (ErrorPayload "Verification failed" (Some (message error))))).

End Engine.

Definition handler : Request -> JS Response :=
  engine checkMetadata checkCompression checkFonts checkTemplate.

End Placeholder.

(** ** The Sightengine-backed verifier *)

Module Sightengine.

(** What [fetch] resolves to: [response.ok], [response.status] and the
    outcome of [response.json()], which may fail and may yield [null]
    ([None]); a JSON value that is not an object has none of the
    properties the handler reads, like the empty object. *)
Record FetchResponse := {
  ok : bool;
  http_status : Z;
  json_body : Completion (option SightengineData)
}.

(** The collaborators of the handler: the two environment variables, the
    detection service behind [fetch] (called with the URL and the entries
    of the form), and the text of [${Math.round(aiScore * 100)}] for a
    score [aiScore]. *)
Record Host := {
  SIGHTENGINE_API_USER : option string;
  SIGHTENGINE_API_SECRET : option string;
  fetch : string -> list (string * string) -> Completion FetchResponse;
  percent_text : Q -> string
}.

Definition await {A : Type} (c : Completion A) : JS A :=
  match c with
  | Normal a => ret a
  | Throw e => throw e
  end.

Definition knownSportsbooks : list string :=
  ["FanDuel"; "DraftKings"; "BetMGM"; "Caesars"; "Unknown"].

Section Checks.

Variable host : Host.
Variable data : SightengineData.

(** [if (data.type && data.type.ai_generated) { ... }]: a number is
    truthy when it is not zero. *)
Definition aiDetection (acc : list Finding * Z) : list Finding * Z :=
  let '(findings, legitimacyScore) := acc in
  match type data with
  | Some t =>
      match ai_generated t with
      | Some aiScore =>
          if Qeq_bool aiScore 0 then acc
          else if gt aiScore lit_0_7 then
            (push findings
               {| category := "AI Detection";
                  status := "negative";
                  detail := "High probability (" ++ percent_text host aiScore
                              ++ "%) of AI-generated or heavily manipulated content." |},
             legitimacyScore - 40)
          else if gt aiScore lit_0_4 then
            (push findings
               {| category := "AI Detection";
                  status := "negative";
                  detail := "Moderate probability (" ++ percent_text host aiScore
                              ++ "%) of digital manipulation detected." |},
             legitimacyScore - 25)
          else
            (push findings
               {| category := "AI Detection";
                  status := "positive";
                  detail := "Low probability of AI generation or heavy manipulation." |},
             legitimacyScore)
      | None => acc
      end
  | None => acc
  end.

(** [if (data.quality) { ... }]: [undefined < 0.5] is false. *)
Definition imageQuality (acc : list Finding * Z) : list Finding * Z :=
  let '(findings, legitimacyScore) := acc in
  match quality data with
  | Some q =>
      if match score q with Some v => lt v lit_0_5 | None => false end then
        (push findings
           {| category := "Image Quality";
              status := "negative";
              detail := "Poor image quality may indicate screenshot or re-photograph of original." |},
         legitimacyScore - 15)
      else
        (push findings
           {| category := "Image Quality";
              status := "positive";
              detail := "Image quality consistent with direct capture." |},
         legitimacyScore)
  | None => acc
  end.

(** [if (data.faces && data.faces.length > 0) { ... }] *)
Definition contentAnalysis (acc : list Finding * Z) : list Finding * Z :=
  let '(findings, legitimacyScore) := acc in
  match faces data with
  | Some fs =>
      if 0 <? Z.of_nat (length fs) then
        (push findings
           {| category := "Content Analysis";
              status := "negative";
              detail := "Unexpected content detected (faces found in image)." |},
         legitimacyScore - 20)
      else acc
  | None => acc
  end.

End Checks.

Definition handler (host : Host) (req : Request) : JS Response :=
  if negb (method req =? "POST")%string then
    ret (res_status_json 405 (ErrorPayload "Method not allowed" None))
  else
    try_catch
      (let apiUser := SIGHTENGINE_API_USER host in
       let apiSecret := SIGHTENGINE_API_SECRET host in
       _ <- (if negb (truthy apiUser) || negb (truthy apiSecret) then
               throw {| message := "Sightengine credentials not configured" |}
             else ret tt) ;;
       let formData0 : list (string * string) := [] in
       formData1 <-
         (if truthy (body_file req) then
            ret (push formData0 ("media", interpolate (body_file req)))
          else
            match files_upload req with
            | Some upload =>
                ret (push formData0 ("media", interpolate (upload_data upload)))
            | None => throw {| message := "No image file provided" |}
            end) ;;
       let formData2 := push formData1 ("models", "genai") in
       let formData3 := push formData2 ("api_user", interpolate apiUser) in
       let formData4 := push formData3 ("api_secret", interpolate apiSecret) in
       response <-
         await (fetch host "https://api.sightengine.com/1.0/check.json" formData4) ;;
       _ <- (if negb (ok response) then
               throw {| message := "Sightengine API error: "
                                     ++ Number_toString (http_status response) |}
             else ret tt) ;;
       parsed <- await (json_body response) ;;
       let findings0 : list Finding := [] in
       let legitimacyScore0 := 100 in
       data <-
         (match parsed with
          | Some d => ret d
          | None =>
              throw {| message := "Cannot read properties of null (reading 'type')" |}
          end) ;;
       let '(findings1, legitimacyScore1) :=
         aiDetection host data (findings0, legitimacyScore0) in
       let '(findings2, legitimacyScore2) :=
         imageQuality data (findings1, legitimacyScore1) in
       let '(findings3, legitimacyScore3) :=
         contentAnalysis data (findings2, legitimacyScore2) in
       r <- Math_random ;;
       let detectedSportsbook :=
         index knownSportsbooks
               (Math_floor
                  (to_double (r * inject_Z (Z.of_nat (length knownSportsbooks))))) in
       let findings4 :=
         push findings3
           {| category := "Layout Analysis";
              status := "neutral";
              detail := "Analyzing against " ++ interpolate detectedSportsbook
                          ++ " template patterns." |} in
       let confidence := Math_max 0 (Math_min 100 legitimacyScore3) in
       let verdict :=
         if 70 <=? confidence then "Likely Legitimate" else "Likely Fabricated" in
       ret (res_status_json 200
              (ReportPayload
                 {| verdict := verdict;
                    confidence := Math_round confidence;
                    findings := findings4;
                    sportsbook := detectedSportsbook;
                    rawData := Some data |})))
      (fun error =>
         ret (res_status_json 500
                (ErrorPayload "Verification failed" (Some (message error))))).

End Sightengine.

(** ** The canvas-backed verifier *)

Module Canvas.

(** [s.includes(pat)] *)
Definition includes (s pat : string) : bool :=
  match String.index 0 pat s with
  | Some _ => true
  | None => false
  end.

(** The object [exif] of [checkMetadata]: the source leaves it empty. *)
Record Exif := { Software : option string }.

(** [Buffer.from(text, 'base64')]: fails on [undefined]. The bytes are
    never inspected by the checks, the text stands for them. *)
Definition Buffer_from (text : option string) : JS string :=
  match text with
  | Some s => ret s
  | None =>
      throw {| message := "The first argument must be of type string or an instance of Buffer, ArrayBuffer, or Array or an Array-like Object. Received undefined" |}
  end.

Definition checkMetadata (imageBuffer : string) : JS AnalysisResult :=
  try_catch
    (let exif := {| Software := None |} in
     let hasEditingSoftware :=
       match Software exif with
       | Some sw =>
           truthy (Some sw) && (includes sw "Photoshop" || includes sw "GIMP")
       | None => false
       end in
     if hasEditingSoftware then
       ret {| finding := {| category := "Metadata";
                            status := "negative";
                            detail := "Image shows signs of editing software usage." |};
              penalty := 30;
              detectedSportsbook := None |}
     else
       ret {| finding := {| category := "Metadata";
                            status := "neutral";
                            detail := "No strong metadata indicators found." |};
              penalty := 0;
              detectedSportsbook := None |})
    (fun err =>
       ret {| finding := {| category := "Metadata";
                            status := "neutral";
                            detail := "Metadata analysis inconclusive." |};
              penalty := 0;
              detectedSportsbook := None |}).

Definition checkCompression (imageBuffer : string) : JS AnalysisResult :=
  try_catch
    (r <- Math_random ;;
     let hasIrregularCompression := gt r lit_0_7 in
     if hasIrregularCompression then
       ret {| finding := {| category := "Compression Anomaly";
                            status := "negative";
                            detail := "Irregular compression detected near critical regions (amounts/odds)." |};
              penalty := 25;
              detectedSportsbook := None |}
     else
       ret {| finding := {| category := "Compression";
                            status := "positive";
                            detail := "Compression artifacts appear uniform across image." |};
              penalty := 0;
              detectedSportsbook := None |})
    (fun err =>
       ret {| finding := {| category := "Compression";
                            status := "neutral";
                            detail := "Compression analysis inconclusive." |};
              penalty := 5;
              detectedSportsbook := None |}).

Definition checkFonts (imageBuffer : string) : JS AnalysisResult :=
  try_catch
    (r <- Math_random ;;
     let hasInconsistentFonts := gt r lit_0_8 in
     if hasInconsistentFonts then
       ret {| finding := {| category := "Font Mismatch";
                            status := "negative";
                            detail := "Multiple font styles detected where uniform font is expected." |};
              penalty := 20;
              detectedSportsbook := None |}
     else
       ret {| finding := {| category := "Font Consistency";
                            status := "positive";
                            detail := "Fonts appear consistent with known sportsbook typography." |};
              penalty := 0;
              detectedSportsbook := None |})
    (fun err =>
       ret {| finding := {| category := "Font Analysis";
                            status := "neutral";
                            detail := "Font analysis inconclusive." |};
              penalty := 5;
              detectedSportsbook := None |}).

Definition knownSportsbooks : list string :=
  ["FanDuel"; "DraftKings"; "BetMGM"; "Caesars"].

Definition checkTemplate (imageBuffer : string) : JS AnalysisResult :=
  try_catch
    (r1 <- Math_random ;;
     let detected :=
       index knownSportsbooks
             (Math_floor (r1 * inject_Z (Z.of_nat (length knownSportsbooks)))) in
     r2 <- Math_random ;;
     let matchesTemplate := gt r2 lit_0_3 in
     if matchesTemplate then
       ret {| finding := {| category := "Layout Match";
                            status := "positive";
                            detail := "Slip layout matches known "
                                        ++ interpolate detected ++ " template." |};
              penalty := 0;
              detectedSportsbook := detected |}
     else
       ret {| finding := {| category := "Template Drift";
                            status := "negative";
                            detail := "Spacing and layout differ from known sportsbook templates." |};
              penalty := 25;
              detectedSportsbook := Some "Unknown" |})
    (fun err =>
       ret {| finding := {| category := "Template Matching";
                            status := "neutral";
                            detail := "Template matching inconclusive." |};
              penalty := 10;
              detectedSportsbook := Some "Unknown" |}).

(** [req.body.file || Buffer.from(req.body.image, 'base64')]: reading a
    property of an absent [req.body] fails. *)
Definition imageBuffer_of (req : Request) : JS string :=
  match body req with
  | None =>
      throw {| message := "Cannot read properties of undefined (reading 'file')" |}
  | Some b =>
      match file b with
      | Some f => if truthy (Some f) then ret f else Buffer_from (image b)
      | None => Buffer_from (image b)
      end
  end.

(** The body of [handler], with the four checks it awaits as parameters. *)
Section Engine.

Variables checkMetadata' checkCompression' checkFonts' checkTemplate'
  : string -> JS AnalysisResult.

Definition engine (req : Request) : JS Response :=
  if negb (method req =? "POST")%string then
    ret (res_status_json 405 (ErrorPayload "Method not allowed" None))
  else
    try_catch
      (imageBuffer <- imageBuffer_of req ;;
       let findings0 : list Finding := [] in
       let legitimacyScore0 := 100 in
       metadataCheck <- checkMetadata' imageBuffer ;;
       let findings1 := push findings0 (finding metadataCheck) in
       let legitimacyScore1 := legitimacyScore0 - penalty metadataCheck in
       compressionCheck <- checkCompression' imageBuffer ;;
       let findings2 := push findings1 (finding compressionCheck) in
       let legitimacyScore2 := legitimacyScore1 - penalty compressionCheck in
       fontCheck <- checkFonts' imageBuffer ;;
       let findings3 := push findings2 (finding fontCheck) in
       let legitimacyScore3 := legitimacyScore2 - penalty fontCheck in
       templateCheck <- checkTemplate' imageBuffer ;;
       let findings4 := push findings3 (finding templateCheck) in
       let legitimacyScore4 := legitimacyScore3 - penalty templateCheck in
       let confidence := Math_max 0 (Math_min 100 legitimacyScore4) in
       let verdict :=
         if 70 <=? confidence then "Likely Legitimate" else "Likely Fabricated" in
       ret (res_status_json 200
              (ReportPayload
                 {| verdict := verdict;
                    confidence := Math_round confidence;
                    findings := findings4;
                    sportsbook :=
                      Some (or_else (detectedSportsbook templateCheck) "Unknown");
                    rawData := None |})))
      (fun error =>
         ret (res_status_json 500
                (ErrorPayload "Verification failed" (Some (message error))))).

End Engine.

Definition handler : Request -> JS Response :=
  engine checkMetadata checkCompression checkFonts checkTemplate.

End Canvas.

(** ** The extraction handler (Api/extract-bet-slip.js) *)

Module Extract.

(** [req.body] as the handler destructures it. *)
Record ExtractBody := {
  image : option string;
  filename : option string
}.

Record ExtractRequest := {
  req_method : string;
  req_body : option ExtractBody
}.

(** The JSON document of the OCR service, as far as the handler reads
    it. *)
Record Vendor := { name : option string }.

Record VeryfiData := {
  vendor : option Vendor;
  total : option Q;
  date : option string
}.

(** The object the handler serialises into the body of its call. A
    [file_data] that is [undefined] is left out by [JSON.stringify]. *)
Record Document := {
  file_name : string;
  file_data : option string;
  categories : list string;
  auto_delete : bool
}.

(** The second argument of [fetch]. *)
Record FetchInit := {
  init_method : string;
  headers : list (string * string);
  init_body : Document
}.

(** What [fetch] resolves to; [response.json()] may fail, and may yield
    [null]. *)
Record FetchResponse := {
  ok : bool;
  http_status : Z;
  json_body : Completion (option VeryfiData)
}.

(** The collaborators of the handler: the three environment variables,
    the service behind [fetch], and the text of
    [new Date().toISOString()]. *)
Record Host := {
  VERYFI_CLIENT_ID : option string;
  VERYFI_USERNAME : option string;
  VERYFI_API_KEY : option string;
  fetch : string -> FetchInit -> Completion FetchResponse;
  toISOString_now : string
}.

(** The object [extractedData]; its [date] property is [extracted_date]
    here. *)
Record ExtractedData := {
  sportsbook : string;
  amount : Q;
  extracted_date : string;
  rawData : VeryfiData
}.

Inductive ExtractPayload : Type :=
| ExtractError (error : string) (msg : option string)
| Extracted (extractedData : ExtractedData).

Record ExtractResponse := {
  code : Z;
  payload : ExtractPayload
}.

Definition res_status_json (c : Z) (p : ExtractPayload) : ExtractResponse :=
  {| code := c; payload := p |}.

Definition await {A : Type} (c : Completion A) : JS A :=
  match c with
  | Normal a => ret a
  | Throw e => throw e
  end.

(** [s.split(sep)[0]] for a one-character separator: the text before the
    first occurrence of [sep], all of [s] when there is none. *)
Fixpoint split_head (sep : ascii) (s : string) : string :=
  match s with
  | EmptyString => EmptyString
  | String c rest =>
      if Ascii.eqb c sep then EmptyString else String c (split_head sep rest)
  end.

(** [x || 0] for a number: zero and [undefined] are falsy. *)
Definition or_zero (x : option Q) : Q :=
  match x with
  | Some v => if Qeq_bool v 0 then 0%Q else v
  | None => 0%Q
  end.

Definition handler (host : Host) (req : ExtractRequest) : JS ExtractResponse :=
  if negb (req_method req =? "POST")%string then
    ret (res_status_json 405 (ExtractError "Method not allowed" None))
  else
    try_catch
      (destructured <-
         (match req_body req with
          | Some b => ret (image b, filename b)
          | None =>
              throw {| message := "Cannot destructure property 'image' of 'req.body' as it is undefined." |}
          end) ;;
       let '(image, filename) := destructured in
       let clientId := VERYFI_CLIENT_ID host in
       let username := VERYFI_USERNAME host in
       let apiKey := VERYFI_API_KEY host in
       response <-
         await (fetch host "https://api.veryfi.com/api/v8/partner/documents/"
                  {| init_method := "POST";
                     headers :=
                       [("Content-Type", "application/json");
                        ("CLIENT-ID", interpolate clientId);
                        ("AUTHORIZATION",
                         "apikey " ++ interpolate username ++ ":"
                           ++ interpolate apiKey)];
                     init_body :=
                       {| file_name := or_else filename "bet_slip.jpg";
                          file_data := image;
                          categories := ["receipt"; "sports"];
                          auto_delete := true |} |}) ;;
       _ <- (if negb (ok response) then
               throw {| message := "Veryfi API error: "
                                     ++ Number_toString (http_status response) |}
             else ret tt) ;;
       parsed <- await (json_body response) ;;
       data <-
         (match parsed with
          | Some d => ret d
          | None =>
              throw {| message := "Cannot read properties of null (reading 'vendor')" |}
          end) ;;
       let extractedData :=
         {| sportsbook :=
              or_else (match vendor data with
                       | Some v => name v
                       | None => None
                       end) "Unknown";
            amount := or_zero (total data);
            extracted_date :=
              or_else (date data) (split_head "T" (toISOString_now host));
            rawData := data |} in
       ret (res_status_json 200 (Extracted extractedData)))
      (fun error =>
         ret (res_status_json 500
                (ExtractError "Failed to process bet slip" (Some (message error))))).

End Extract.

(** ** Notions used in the statements *)

(** The report carried by the outcome of a handler, if any. *)
Definition report_of (out : Completion Response * Runtime)
  : option VerificationReport :=
  match out with
  | (Normal {| statusCode := _; json := ReportPayload rep |}, _) => Some rep
  | _ => None
  end.

(** What a report of the placeholder or canvas engine is made of, in
    terms of the four results [a], [b], [c], [d] of its checks. *)
Definition made_of (rep : VerificationReport) (a b c d : AnalysisResult) : Prop :=
  let clamped :=
    Math_max 0 (Math_min 100 (100 - penalty a - penalty b - penalty c - penalty d)) in
  verdict rep = (if 70 <=? clamped then "Likely Legitimate" else "Likely Fabricated")
  /\ confidence rep = clamped
  /\ findings rep = [finding a; finding b; finding c; finding d]
  /\ sportsbook rep = Some (or_else (detectedSportsbook d) "Unknown")
  /\ rawData rep = None.

(** The points a list of check results deducts in total. *)
Definition total_penalty (results : list AnalysisResult) : Z :=
  fold_right (fun r acc => penalty r + acc) 0 results.

(** The contract of [Math.random]: a returned number lies in [0, 1). *)
Definition unit_draws (w : Runtime) : Prop :=
  forall n q, random_feed w n = Normal q -> (0 <= q)%Q /\ (q < 1)%Q.

(** The contract of [Math.random], to the last bit: a returned number is
    a double of [0, 1), hence at most the largest double below 1. *)
Definition double_draws (w : Runtime) : Prop :=
  forall n q, random_feed w n = Normal q -> (0 <= q)%Q /\ (q <= below_one)%Q.

(** How the result [t] of a template check relates to the name the report
    carries: on a match the name is the detected one, taken from the
    known sportsbooks and quoted in the finding; otherwise it is
    "Unknown". *)
Definition template_outcome (known : list string) (t : AnalysisResult)
           (name : string) : Prop :=
  (category (finding t) = "Layout Match"
   /\ status (finding t) = "positive"
   /\ In name known
   /\ detectedSportsbook t = Some name
   /\ detail (finding t) = "Slip layout matches known " ++ name ++ " template.")
  \/ (category (finding t) <> "Layout Match"
      /\ status (finding t) <> "positive"
      /\ name = "Unknown").

(** *** Canvas *)

(** The image the handler hands to its checks, when the request has one. *)
Definition supplied_image (req : Request) : option string :=
  match body req with
  | Some b => if truthy (file b) then file b else image b
  | None => None
  end.


(** *** Sightengine *)

(** The three score-reducing steps of the handler, in its order. *)
Definition tally (host : Sightengine.Host) (data : SightengineData) : list Finding * Z :=
  Sightengine.contentAnalysis data (Sightengine.imageQuality data (Sightengine.aiDetection host data ([], 100))).

(** The finding the handler always appends last. *)
Definition layoutFinding (name : option string) : Finding :=
  {| category := "Layout Analysis";
     status := "neutral";
     detail := "Analyzing against " ++ interpolate name ++ " template patterns." |}.

(** Each score-reducing step appends at most one finding of its own
    category and deducts one of its fixed amounts. *)
Definition step_shape (step : list Finding * Z -> list Finding * Z)
           (cat : string) (amounts : list Z) (out : list Finding) (p : Z) : Prop :=
  (forall fs s, step (fs, s) = ((fs ++ out)%list, s - p))
  /\ (length out <= 1)%nat
  /\ Forall (fun x => category x = cat) out
  /\ In p amounts
  /\ (out = [] -> p = 0).

(** ** Sample inputs *)

(** A runtime whose successive [Math.random] calls behave as listed (and
    return one half afterwards). *)
Definition feed_of (l : list (Completion Q)) : nat -> Completion Q :=
  fun n => nth n l (Normal (1 # 2)%Q).

Definition runtime_of (l : list (Completion Q)) : Runtime :=
  {| random_feed := feed_of l; drawn := 0 |}.

Definition calm : Runtime :=
  runtime_of [Normal 0.25%Q; Normal 0.25%Q; Normal 0.25%Q; Normal 0.3%Q; Normal 0.75%Q].

Definition post_with_file : Request :=
  {| method := "POST";
     body := Some {| file := Some "aGVsbG8="; image := None |};
     files := None |}.

Definition post_without_image : Request :=
  {| method := "POST";
     body := Some {| file := None; image := None |};
     files := None |}.

(** A configured host whose detection service answers [data]; the
    percentage is rounded on the exact rational. *)
Definition service (data : SightengineData) : Sightengine.Host :=
  {| Sightengine.SIGHTENGINE_API_USER := Some "user";
     Sightengine.SIGHTENGINE_API_SECRET := Some "secret";
     Sightengine.fetch := fun _ _ =>
       Normal {| Sightengine.ok := true;
                 Sightengine.http_status := 200;
                 Sightengine.json_body := Normal (Some data) |};
     Sightengine.percent_text := fun v =>
       Number_toString (Qfloor (v * 100 + (1 # 2))) |}.


(** Four fixed check results. *)
Definition edited : AnalysisResult :=
  {| finding := {| category := "Metadata";
                   status := "negative";
                   detail := "Image shows signs of editing software usage." |};
     penalty := 30;
     detectedSportsbook := None |}.

Definition uniform : AnalysisResult :=
  {| finding := {| category := "Compression";
                   status := "positive";
                   detail := "Compression artifacts appear uniform across image." |};
     penalty := 0;
     detectedSportsbook := None |}.

Definition mismatched : AnalysisResult :=
  {| finding := {| category := "Font Mismatch";
                   status := "negative";
                   detail := "Multiple font styles detected where uniform font is expected." |};
     penalty := 20;
     detectedSportsbook := None |}.

Definition drifted : AnalysisResult :=
  {| finding := {| category := "Template Drift";
                   status := "negative";
                   detail := "Spacing and layout differ from known sportsbook templates." |};
     penalty := 25;
     detectedSportsbook := Some "Unknown" |}.

Definition genai_only (v : Q) : SightengineData :=
  {| type := Some {| ai_generated := Some v |}; quality := None; faces := None |}.

Definition full_answer : SightengineData :=
  {| type := Some {| ai_generated := Some 0.9%Q |};
     quality := Some {| score := Some 0.3%Q |};
     faces := Some [tt] |}.

(** ** Further notions and sample inputs *)

(** The three shapes of an answer of a verification handler: the refusal
    of a method other than POST, which leaves the runtime as it was; a
    report with status 200; the failure with status 500. *)
Definition verify_shape (req : Request) (w : Runtime)
           (resp : Response) (w' : Runtime) : Prop :=
  (method req <> "POST"
   /\ resp = res_status_json 405 (ErrorPayload "Method not allowed" None)
   /\ w' = w)
  \/ (method req = "POST"
      /\ exists rep, resp = res_status_json 200 (ReportPayload rep))
  \/ (method req = "POST"
      /\ exists m,
           resp = res_status_json 500
                    (ErrorPayload "Verification failed" (Some m))).

(** How many findings are negative. *)
Definition count_negative (fs : list Finding) : nat :=
  length (filter (fun f => (status f =? "negative")%string) fs).

(** A check result whose penalty fits the status of its finding. *)
Definition coherent (a : AnalysisResult) : Prop :=
  (status (finding a) = "positive" /\ penalty a = 0)
  \/ (status (finding a) = "negative" /\ 20 <= penalty a <= 30)
  \/ (status (finding a) = "neutral" /\ 0 <= penalty a <= 10).

(** The image the Sightengine handler uploads, when the request has one. *)
Definition media_of (req : Request) : option string :=
  if truthy (body_file req) then body_file req
  else match files_upload req with
       | Some upload => Some (interpolate (upload_data upload))
       | None => None
       end.

(** The form the Sightengine handler posts for the image [media]. *)
Definition form_of (host : Sightengine.Host) (media : string)
  : list (string * string) :=
  [("media", media);
   ("models", "genai");
   ("api_user", interpolate (Sightengine.SIGHTENGINE_API_USER host));
   ("api_secret", interpolate (Sightengine.SIGHTENGINE_API_SECRET host))].

(** The extraction host [host] with its service replaced by one that
    gives the single answer [answer]. *)
Definition answering (host : Extract.Host)
           (answer : Completion Extract.FetchResponse) : Extract.Host :=
  {| Extract.VERYFI_CLIENT_ID := Extract.VERYFI_CLIENT_ID host;
     Extract.VERYFI_USERNAME := Extract.VERYFI_USERNAME host;
     Extract.VERYFI_API_KEY := Extract.VERYFI_API_KEY host;
     Extract.fetch := fun _ _ => answer;
     Extract.toISOString_now := Extract.toISOString_now host |}.

(** [c] occurs in [s]. *)
Fixpoint occurs (c : ascii) (s : string) : bool :=
  match s with
  | EmptyString => false
  | String a rest => Ascii.eqb a c || occurs c rest
  end.

Definition receipt : Extract.VeryfiData :=
  {| Extract.vendor := Some {| Extract.name := Some "FanDuel" |};
     Extract.total := Some 25%Q;
     Extract.date := None |}.

(** An extraction host that echoes the file name it is sent as the vendor
    of its answer. *)
Definition ocr : Extract.Host :=
  {| Extract.VERYFI_CLIENT_ID := Some "client";
     Extract.VERYFI_USERNAME := Some "user";
     Extract.VERYFI_API_KEY := Some "key";
     Extract.fetch := fun _ init =>
       Normal {| Extract.ok := true;
                 Extract.http_status := 201;
                 Extract.json_body :=
                   Normal (Some {| Extract.vendor :=
                                     Some {| Extract.name :=
                                               Some (Extract.file_name
                                                       (Extract.init_body init)) |};
                                   Extract.total := Some 25%Q;
                                   Extract.date := None |}) |};
     Extract.toISOString_now := "2024-03-09T17:45:12.000Z" |}.

Definition ocr_down : Extract.Host :=
  {| Extract.VERYFI_CLIENT_ID := Some "client";
     Extract.VERYFI_USERNAME := Some "user";
     Extract.VERYFI_API_KEY := Some "key";
     Extract.fetch := fun _ _ =>
       Normal {| Extract.ok := false;
                 Extract.http_status := 401;
                 Extract.json_body := Normal None |};
     Extract.toISOString_now := "2024-03-09T17:45:12.000Z" |}.

Definition slip_post : Extract.ExtractRequest :=
  {| Extract.req_method := "POST";
     Extract.req_body :=
       Some {| Extract.image := Some "aGVsbG8="; Extract.filename := None |} |}.

Definition slip_get : Extract.ExtractRequest :=
  {| Extract.req_method := "GET"; Extract.req_body := None |}.

Definition get_request : Request :=
  {| method := "GET"; body := None; files := None |}.


(** A runtime in which every call of [Math.random] fails. *)
Definition stormy : Runtime :=
  {| random_feed := fun _ => Throw {| message := "detector unavailable" |};
     drawn := 0 |}.

(** A configured Sightengine host whose [fetch] rejects. *)
Definition unreachable : Sightengine.Host :=
  {| Sightengine.SIGHTENGINE_API_USER := Some "user";
     Sightengine.SIGHTENGINE_API_SECRET := Some "secret";
     Sightengine.fetch := fun _ _ => Throw {| message := "fetch failed" |};
     Sightengine.percent_text := fun _ => "" |}.

(** A Sightengine host without credentials. *)
Definition unconfigured : Sightengine.Host :=
  {| Sightengine.SIGHTENGINE_API_USER := None;
     Sightengine.SIGHTENGINE_API_SECRET := Some "secret";
     Sightengine.fetch := fun _ _ => Throw {| message := "fetch failed" |};
     Sightengine.percent_text := fun _ => "" |}.

Definition empty_answer : SightengineData :=
  {| type := None; quality := None; faces := Some [] |}.

(** ** Reasoning about [JS] computations *)

Lemma try_catch_returns {A : Type} (m : JS A) (h : Error -> A) w :
  exists a w1, try_catch m (fun e => ret (h e)) w = (Normal a, w1).
Proof.
  unfold try_catch, ret. destruct (m w) as [[a | e] w1]; eauto.
Qed.

(** The nearest integer is at most one half above. *)
Lemma round_half_even_bounds (y : Q) :
  (0 <= y)%Q ->
  0 <= round_half_even y /\ (inject_Z (round_half_even y) <= y + (1 # 2))%Q.
Proof.
  intros Hy. unfold round_half_even.
  pose proof (Qfloor_le y) as Hf.
  assert (H0 : 0 <= Qfloor y).
  { change 0 with (Qfloor 0). apply Qfloor_resp_le. exact Hy. }
  assert (H1 : (inject_Z (Qfloor y + 1) == inject_Z (Qfloor y) + 1)%Q)
    by (rewrite inject_Z_plus; reflexivity).
  destruct (y - inject_Z (Qfloor y) ?= 1 # 2)%Q eqn:Hcmp.
  - apply Qeq_alt in Hcmp.
    destruct (Z.even (Qfloor y)); (split; [lia | ]); [lra | rewrite H1; lra].
  - split; [lia | lra].
  - apply Qgt_alt in Hcmp. split; [lia | rewrite H1; lra].
Qed.

(** The binade of a positive number below 5 is at most that of 4. *)
Lemma binade_below_5 (x : Q) :
  (0 < x)%Q -> (x < 5)%Q -> binade x <= 2.
Proof.
  intros Hpos Hlt. unfold binade.
  assert (Hn : 0 < Qnum x) by (unfold Qlt in Hpos; cbn in Hpos; lia).
  assert (Hd : Qnum x <= Z.pos (Qden x) * 2 ^ 3)
    by (unfold Qlt in Hlt; cbn in Hlt; lia).
  assert (He : Z.log2 (Qnum x) <= 3 + Z.log2 (Z.pos (Qden x))).
  { rewrite <- Z.log2_mul_pow2 by lia. apply Z.log2_le_mono. exact Hd. }
  destruct (Qle_bool (2 ^ (Z.log2 (Qnum x) - Z.log2 (Z.pos (Qden x)))) x) eqn:Hb;
    [ | lia].
  apply Qle_bool_iff in Hb.
  destruct (Z.le_gt_cases (Z.log2 (Qnum x) - Z.log2 (Z.pos (Qden x))) 2)
    as [Hle | Hgt]; [exact Hle | exfalso].
  replace (Z.log2 (Qnum x) - Z.log2 (Z.pos (Qden x))) with 3 in Hb by lia.
  change (2 ^ 3)%Q with 8%Q in Hb. lra.
Qed.

(** The double nearest to a positive number that is at most five times
    the largest double below 1 is itself below 5. *)
Lemma nearest_below_5 (x : Q) :
  (0 < x)%Q -> (x <= 5 * below_one)%Q ->
  (0 <= nearest x)%Q /\ (nearest x < 5)%Q.
Proof.
  intros Hpos Hle. unfold nearest.
  assert (Hlt : (x < 5)%Q) by (unfold below_one in Hle; lra).
  pose proof (binade_below_5 x Hpos Hlt) as Hb.
  set (e := Z.max (binade x) (-1022)).
  assert (He : e - 52 <= -50) by (unfold e; lia).
  set (ulp := (2 ^ (e - 52))%Q).
  assert (Hu0 : (0 < ulp)%Q) by (apply Qpower_0_lt; reflexivity).
  assert (Hu1 : (ulp <= 1 # 1125899906842624)%Q).
  { apply Qle_trans with (2 ^ (-50))%Q.
    - apply Qpower_le_compat_l; [exact He | discriminate].
    - discriminate. }
  assert (Hy : (0 <= x / ulp)%Q).
  { apply Qle_shift_div_l; [exact Hu0 | lra]. }
  destruct (round_half_even_bounds (x / ulp) Hy) as [Hm0 Hm1].
  set (m := round_half_even (x / ulp)) in *.
  assert (Hm0' : (0 <= inject_Z m)%Q).
  { change 0%Q with (inject_Z 0). rewrite <- Zle_Qle. exact Hm0. }
  split.
  - apply Qmult_le_0_compat; [exact Hm0' | lra].
  - apply Qle_lt_trans with ((x / ulp + (1 # 2)) * ulp)%Q.
    + apply Qmult_le_compat_r; [exact Hm1 | lra].
    + assert (Heq : ((x / ulp + (1 # 2)) * ulp == x + ulp * (1 # 2))%Q).
      { field. intros E. rewrite E in Hu0. discriminate. }
      rewrite Heq. unfold below_one in Hle. lra.
Qed.

(** [Math.floor(Math.random() * 5)], with the product rounded, is an index
    of an array of five elements. *)
Lemma floor_of_rounded_product (r : Q) :
  (0 <= r)%Q -> (r <= below_one)%Q ->
  0 <= Math_floor (to_double (r * 5)) < 5.
Proof.
  intros H0 H1. unfold Math_floor, to_double.
  assert (Hnum : Qnum (r * 5) = Qnum r * 5) by reflexivity.
  destruct (Qnum (r * 5)) as [ | p | p] eqn:Hp.
  - cbn. lia.
  - assert (Hpos : (0 < r * 5)%Q).
    { unfold Qlt. cbn. rewrite Hnum in Hp. lia. }
    assert (Hle : (r * 5 <= 5 * below_one)%Q) by lra.
    destruct (nearest_below_5 _ Hpos Hle) as [Hlo Hhi].
    split.
    + change 0 with (Qfloor 0). apply Qfloor_resp_le. exact Hlo.
    + rewrite Zlt_Qlt. apply Qle_lt_trans with (nearest (r * 5)).
      * apply Qfloor_le.
      * exact Hhi.
  - exfalso. unfold Qle in H0. cbn in H0. rewrite Hnum in Hp. lia.
Qed.

(** Indexing a non-empty array with [Math.floor(Math.random() * length)]
    stays inside the array. *)
Lemma index_of_unit_draw {A : Type} (arr : list A) (q : Q) :
  arr <> [] ->
  (0 <= q)%Q -> (q < 1)%Q ->
  exists x,
    index arr (Math_floor (q * inject_Z (Z.of_nat (length arr)))) = Some x
    /\ In x arr.
Proof.
  intros Hne H0 H1. unfold index, Math_floor.
  set (n := Z.of_nat (length arr)).
  assert (Hn : 0 < n).
  { unfold n. destruct arr; [congruence | cbn [length]; lia]. }
  assert (HnQ : (inject_Z 0 < inject_Z n)%Q) by (rewrite <- Zlt_Qlt; exact Hn).
  change (inject_Z 0) with 0%Q in HnQ.
  assert (Hlo : 0 <= Qfloor (q * inject_Z n)).
  { change 0 with (Qfloor 0). apply Qfloor_resp_le. nra. }
  assert (Hhi : Qfloor (q * inject_Z n) < n).
  { rewrite Zlt_Qlt. apply Qle_lt_trans with (q * inject_Z n)%Q.
    - apply Qfloor_le.
    - nra. }
  destruct (Z.ltb_spec (Qfloor (q * inject_Z n)) 0) as [Hneg | _]; [lia | ].
  destruct (nth_error arr (Z.to_nat (Qfloor (q * inject_Z n)))) as [x | ] eqn:Hx.
  - exists x. split; [reflexivity | eapply nth_error_In; exact Hx].
  - apply nth_error_None in Hx. unfold n in *. lia.
Qed.

Lemma or_else_some (s d : string) : s <> "" -> or_else (Some s) d = s.
Proof.
  intros Hs. unfold or_else, truthy.
  destruct (String.eqb_spec s ""); [contradiction | reflexivity].
Qed.

Module PlaceholderFacts.
Import Placeholder.

Lemma placeholder_returns cm cc cf ct req w :
  exists resp w', engine cm cc cf ct req w = (Normal resp, w').
Proof.
  unfold engine. destruct (negb (method req =? "POST")%string).
  - unfold ret. eauto.
  - apply try_catch_returns.
Qed.

Lemma placeholder_report cm cc cf ct req w resp w' rep :
  engine cm cc cf ct req w = (Normal resp, w') ->
  json resp = ReportPayload rep ->
  exists a b c d w1 w2 w3,
    cm w = (Normal a, w1) /\ cc w1 = (Normal b, w2)
    /\ cf w2 = (Normal c, w3) /\ ct w3 = (Normal d, w')
    /\ statusCode resp = 200 /\ method req = "POST"
    /\ made_of rep a b c d.
Proof.
  unfold engine, try_catch, bind, ret, res_status_json.
  destruct (method req =? "POST")%string eqn:Hm; cbn [negb].
  2:{ intros H; inversion H; subst; cbn; discriminate. }
  apply String.eqb_eq in Hm.
  destruct (cm w) as [[a | e] w1] eqn:Ha.
  2:{ intros H; inversion H; subst; cbn; discriminate. }
  destruct (cc w1) as [[b | e] w2] eqn:Hb.
  2:{ intros H; inversion H; subst; cbn; discriminate. }
  destruct (cf w2) as [[c | e] w3] eqn:Hc.
  2:{ intros H; inversion H; subst; cbn; discriminate. }
  destruct (ct w3) as [[d | e] w4] eqn:Hd.
  2:{ intros H; inversion H; subst; cbn; discriminate. }
  intros H Hj. inversion H; subst; clear H. cbn in Hj. inversion Hj; subst.
  exists a, b, c, d, w1, w2, w3. repeat split; assumption || reflexivity.
Qed.

Local Ltac run_draw :=
  unfold bind, Math_random, ret;
  match goal with
  | |- context [random_feed ?w (drawn ?w)] =>
      let r := fresh "r" in let e := fresh "e" in let Hr := fresh "Hr" in
      destruct (random_feed w (drawn w)) as [r | e] eqn:Hr
  end.

Lemma placeholder_checkMetadata_feed w out w' :
  checkMetadata w = (out, w') -> random_feed w' = random_feed w.
Proof.
  unfold checkMetadata. run_draw.
  - destruct (gt r lit_0_8); intros H; inversion H; reflexivity.
  - intros H; inversion H; reflexivity.
Qed.

Lemma placeholder_checkCompression_feed w out w' :
  checkCompression w = (out, w') -> random_feed w' = random_feed w.
Proof.
  unfold checkCompression. run_draw.
  - destruct (gt r lit_0_7); intros H; inversion H; reflexivity.
  - intros H; inversion H; reflexivity.
Qed.

Lemma placeholder_checkFonts_feed w out w' :
  checkFonts w = (out, w') -> random_feed w' = random_feed w.
Proof.
  unfold checkFonts. run_draw.
  - destruct (gt r lit_0_8); intros H; inversion H; reflexivity.
  - intros H; inversion H; reflexivity.
Qed.

Lemma placeholder_checkMetadata_penalty w a w' :
  checkMetadata w = (Normal a, w') -> penalty a = 0 \/ penalty a = 30.
Proof.
  unfold checkMetadata. run_draw.
  - destruct (gt r lit_0_8); intros H; inversion H; cbn; auto.
  - intros H; inversion H.
Qed.

Lemma placeholder_checkCompression_penalty w a w' :
  checkCompression w = (Normal a, w') -> penalty a = 0 \/ penalty a = 25.
Proof.
  unfold checkCompression. run_draw.
  - destruct (gt r lit_0_7); intros H; inversion H; cbn; auto.
  - intros H; inversion H.
Qed.

Lemma placeholder_checkFonts_penalty w a w' :
  checkFonts w = (Normal a, w') -> penalty a = 0 \/ penalty a = 20.
Proof.
  unfold checkFonts. run_draw.
  - destruct (gt r lit_0_8); intros H; inversion H; cbn; auto.
  - intros H; inversion H.
Qed.

Lemma placeholder_checkTemplate_penalty w a w' :
  checkTemplate w = (Normal a, w') -> penalty a = 0 \/ penalty a = 25.
Proof.
  unfold checkTemplate. run_draw; [ | intros H; inversion H].
  cbn [random_feed drawn].
  destruct (random_feed w (S (drawn w))) as [r2 | e]; [ | intros H; inversion H].
  destruct (gt r2 lit_0_3); intros H; inversion H; cbn; auto.
Qed.

Lemma placeholder_known_nonempty name : In name knownSportsbooks -> name <> "".
Proof.
  cbn. intros [<- | [<- | [<- | [<- | []]]]]; discriminate.
Qed.

Lemma placeholder_checkTemplate_outcome w t w' :
  unit_draws w ->
  checkTemplate w = (Normal t, w') ->
  exists name,
    template_outcome knownSportsbooks t name
    /\ or_else (detectedSportsbook t) "Unknown" = name
    /\ name <> "".
Proof.
  intros Hunit. unfold checkTemplate. run_draw; [ | intros H; inversion H].
  cbn [random_feed drawn].
  destruct (random_feed w (S (drawn w))) as [r2 | e]; [ | intros H; inversion H].
  destruct (Hunit _ _ Hr) as [H0 H1].
  destruct (index_of_unit_draw knownSportsbooks r ltac:(discriminate) H0 H1)
    as (name & Hidx & Hin).
  pose proof (placeholder_known_nonempty name Hin) as Hne.
  rewrite Hidx.
  destruct (gt r2 lit_0_3); intros H; inversion H; subst; clear H;
    cbn [finding detectedSportsbook category status detail interpolate].
  - exists name. split; [ | split].
    + left. repeat split; auto.
    + apply or_else_some; exact Hne.
    + exact Hne.
  - exists "Unknown". split; [ | split].
    + right. repeat split; discriminate.
    + reflexivity.
    + discriminate.
Qed.

End PlaceholderFacts.

Module CanvasFacts.
Import Canvas.

Lemma canvas_imageBuffer_of_run req w :
  match supplied_image req with
  | Some buf => imageBuffer_of req w = (Normal buf, w)
  | None => exists e, imageBuffer_of req w = (Throw e, w)
  end.
Proof.
  unfold supplied_image, imageBuffer_of.
  destruct (body req) as [bd | ]; [ | eexists; reflexivity].
  destruct (file bd) as [f | ]; cbn [truthy].
  - destruct (negb (f =? "")%string); [reflexivity | ].
    destruct (image bd); [reflexivity | eexists; reflexivity].
  - destruct (image bd); [reflexivity | eexists; reflexivity].
Qed.

Lemma canvas_returns cm cc cf ct req w :
  exists resp w', engine cm cc cf ct req w = (Normal resp, w').
Proof.
  unfold engine. destruct (negb (method req =? "POST")%string).
  - unfold ret. eauto.
  - apply try_catch_returns.
Qed.

Lemma canvas_report cm cc cf ct req w resp w' rep :
  engine cm cc cf ct req w = (Normal resp, w') ->
  json resp = ReportPayload rep ->
  exists buf a b c d w1 w2 w3,
    supplied_image req = Some buf
    /\ cm buf w = (Normal a, w1) /\ cc buf w1 = (Normal b, w2)
    /\ cf buf w2 = (Normal c, w3) /\ ct buf w3 = (Normal d, w')
    /\ statusCode resp = 200 /\ method req = "POST"
    /\ made_of rep a b c d.
Proof.
  unfold engine, try_catch, bind, res_status_json.
  destruct (method req =? "POST")%string eqn:Hm; cbn [negb].
  2:{ unfold ret. intros H; inversion H; subst; cbn; discriminate. }
  apply String.eqb_eq in Hm.
  pose proof (canvas_imageBuffer_of_run req w) as Hbuf.
  destruct (supplied_image req) as [buf | ]; [ | destruct Hbuf as [e Hbuf]];
    rewrite Hbuf.
  2:{ unfold ret. intros H; inversion H; subst; cbn; discriminate. }
  unfold ret.
  destruct (cm buf w) as [[a | e] w1] eqn:Ha.
  2:{ intros H; inversion H; subst; cbn; discriminate. }
  destruct (cc buf w1) as [[b | e] w2] eqn:Hb.
  2:{ intros H; inversion H; subst; cbn; discriminate. }
  destruct (cf buf w2) as [[c | e] w3] eqn:Hc.
  2:{ intros H; inversion H; subst; cbn; discriminate. }
  destruct (ct buf w3) as [[d | e] w4] eqn:Hd.
  2:{ intros H; inversion H; subst; cbn; discriminate. }
  intros H Hj. inversion H; subst; clear H. cbn in Hj. inversion Hj; subst.
  exists buf, a, b, c, d, w1, w2, w3. repeat split; assumption || reflexivity.
Qed.

(** With checks that always return, a POST request carrying an image is
    answered with a report. *)
Lemma canvas_reports cm cc cf ct req w buf :
  (forall b v, exists a v', cm b v = (Normal a, v')) ->
  (forall b v, exists a v', cc b v = (Normal a, v')) ->
  (forall b v, exists a v', cf b v = (Normal a, v')) ->
  (forall b v, exists a v', ct b v = (Normal a, v')) ->
  method req = "POST" ->
  supplied_image req = Some buf ->
  exists rep w',
    engine cm cc cf ct req w
    = (Normal (res_status_json 200 (ReportPayload rep)), w').
Proof.
  intros Tm Tc Tf Tt Hm Hbuf.
  unfold engine, try_catch, bind. rewrite Hm. cbn [String.eqb Ascii.eqb Bool.eqb negb].
  pose proof (canvas_imageBuffer_of_run req w) as Hrun. rewrite Hbuf in Hrun. rewrite Hrun.
  destruct (Tm buf w) as (a & w1 & ->).
  destruct (Tc buf w1) as (b & w2 & ->).
  destruct (Tf buf w2) as (c & w3 & ->).
  destruct (Tt buf w3) as (d & w4 & ->).
  unfold ret. eauto.
Qed.

Lemma canvas_checkMetadata_returns buf w :
  exists a w', checkMetadata buf w = (Normal a, w').
Proof. apply try_catch_returns. Qed.

Lemma canvas_checkCompression_returns buf w :
  exists a w', checkCompression buf w = (Normal a, w').
Proof. apply try_catch_returns. Qed.

Lemma canvas_checkFonts_returns buf w :
  exists a w', checkFonts buf w = (Normal a, w').
Proof. apply try_catch_returns. Qed.

Lemma canvas_checkTemplate_returns buf w :
  exists a w', checkTemplate buf w = (Normal a, w').
Proof. apply try_catch_returns. Qed.

Lemma canvas_checkMetadata_run buf w :
  checkMetadata buf w
  = (Normal {| finding := {| category := "Metadata";
                             status := "neutral";
                             detail := "No strong metadata indicators found." |};
               penalty := 0;
               detectedSportsbook := None |}, w).
Proof. reflexivity. Qed.

Lemma canvas_checkCompression_runtime buf w b w1 :
  checkCompression buf w = (Normal b, w1) ->
  random_feed w1 = random_feed w /\ drawn w1 = S (drawn w).
Proof.
  unfold checkCompression, try_catch, bind, Math_random.
  destruct (random_feed w (drawn w)) as [r | e].
  - destruct (gt r lit_0_7); intros H; inversion H; split; reflexivity.
  - intros H; inversion H; split; reflexivity.
Qed.


Lemma canvas_handler_reports req w buf :
  method req = "POST" ->
  supplied_image req = Some buf ->
  exists rep w',
    handler req w = (Normal (res_status_json 200 (ReportPayload rep)), w').
Proof.
  apply canvas_reports.
  - apply canvas_checkMetadata_returns.
  - apply canvas_checkCompression_returns.
  - apply canvas_checkFonts_returns.
  - apply canvas_checkTemplate_returns.
Qed.

Lemma canvas_checkFonts_feed buf w out w' :
  checkFonts buf w = (out, w') -> random_feed w' = random_feed w.
Proof.
  unfold checkFonts, try_catch, bind, Math_random, ret.
  destruct (random_feed w (drawn w)) as [r | e].
  - destruct (gt r lit_0_8); intros H; inversion H; reflexivity.
  - intros H; inversion H; reflexivity.
Qed.

Lemma canvas_known_nonempty name : In name knownSportsbooks -> name <> "".
Proof.
  cbn. intros [<- | [<- | [<- | [<- | []]]]]; discriminate.
Qed.

Lemma canvas_checkTemplate_outcome buf w t w' :
  unit_draws w ->
  checkTemplate buf w = (Normal t, w') ->
  exists name,
    template_outcome knownSportsbooks t name
    /\ or_else (detectedSportsbook t) "Unknown" = name
    /\ name <> "".
Proof.
  intros Hunit. unfold checkTemplate, try_catch, bind, Math_random, ret.
  assert (Hfail : exists name,
             template_outcome knownSportsbooks
               {| finding := {| category := "Template Matching";
                                status := "neutral";
                                detail := "Template matching inconclusive." |};
                  penalty := 10;
                  detectedSportsbook := Some "Unknown" |} name
             /\ or_else (Some "Unknown") "Unknown" = name /\ name <> "").
  { exists "Unknown". split; [ | split].
    - right. repeat split; discriminate.
    - reflexivity.
    - discriminate. }
  destruct (random_feed w (drawn w)) as [r | e] eqn:Hr.
  2:{ intros H; inversion H; subst; exact Hfail. }
  cbn [random_feed drawn].
  destruct (random_feed w (S (drawn w))) as [r2 | e].
  2:{ intros H; inversion H; subst; exact Hfail. }
  destruct (Hunit _ _ Hr) as [H0 H1].
  destruct (index_of_unit_draw knownSportsbooks r ltac:(discriminate) H0 H1)
    as (name & Hidx & Hin).
  pose proof (canvas_known_nonempty name Hin) as Hne.
  rewrite Hidx.
  destruct (gt r2 lit_0_3); intros H; inversion H; subst; clear H;
    cbn [finding detectedSportsbook category status detail interpolate].
  - exists name. split; [ | split].
    + left. repeat split; auto.
    + apply or_else_some; exact Hne.
    + exact Hne.
  - exists "Unknown". split; [ | split].
    + right. repeat split; discriminate.
    + reflexivity.
    + discriminate.
Qed.

End CanvasFacts.

Module SightengineFacts.
Import Sightengine.

Lemma sightengine_handler_returns host req w :
  exists resp w', handler host req w = (Normal resp, w').
Proof.
  unfold handler. destruct (negb (method req =? "POST")%string).
  - unfold ret. eauto.
  - apply try_catch_returns.
Qed.

Lemma sightengine_handler_report host req w resp w' rep :
  handler host req w = (Normal resp, w') ->
  json resp = ReportPayload rep ->
  exists form response data r,
    fetch host "https://api.sightengine.com/1.0/check.json" form = Normal response
    /\ ok response = true
    /\ json_body response = Normal (Some data)
    /\ random_feed w (drawn w) = Normal r
    /\ statusCode resp = 200 /\ method req = "POST"
    /\ let clamped := Math_max 0 (Math_min 100 (snd (tally host data))) in
       let name := index knownSportsbooks (Math_floor (to_double (r * 5))) in
       verdict rep = (if 70 <=? clamped then "Likely Legitimate" else "Likely Fabricated")
       /\ confidence rep = clamped
       /\ findings rep = push (fst (tally host data)) (layoutFinding name)
       /\ sportsbook rep = name
       /\ rawData rep = Some data.
Proof.
  unfold handler, try_catch, bind, res_status_json.
  destruct (method req =? "POST")%string eqn:Hm; cbn [negb].
  2:{ unfold ret. intros H; inversion H; subst; cbn; discriminate. }
  apply String.eqb_eq in Hm.
  destruct (negb (truthy (SIGHTENGINE_API_USER host))
            || negb (truthy (SIGHTENGINE_API_SECRET host))).
  { unfold throw, ret. intros H; inversion H; subst; cbn; discriminate. }
  unfold ret at 1.
  match goal with
  | |- context [match ?m w with _ => _ end] =>
      destruct (m w) as [[form1 | e] w1] eqn:Hform
  end.
  2:{ unfold ret. intros H; inversion H; subst; cbn; discriminate. }
  assert (w1 = w) as ->.
  { destruct (truthy (body_file req)).
    - inversion Hform; reflexivity.
    - destruct (files_upload req); inversion Hform; reflexivity. }
  match goal with
  | |- context [await (fetch host ?u ?f)] =>
      destruct (fetch host u f) as [response | e] eqn:Hfetch
  end; cbn [await].
  2:{ unfold throw, ret. intros H; inversion H; subst; cbn; discriminate. }
  unfold ret at 1.
  destruct (ok response) eqn:Hok; cbn [negb].
  2:{ unfold throw, ret. intros H; inversion H; subst; cbn; discriminate. }
  unfold ret at 1.
  destruct (json_body response) as [[data | ] | e] eqn:Hjson; cbn [await].
  2:{ unfold throw, ret. intros H; inversion H; subst; cbn; discriminate. }
  2:{ unfold throw, ret. intros H; inversion H; subst; cbn; discriminate. }
  unfold ret at 1 2.
  cbv zeta.
  destruct (aiDetection host data ([], 100)) as [f1 s1] eqn:H1.
  destruct (imageQuality data (f1, s1)) as [f2 s2] eqn:H2.
  destruct (contentAnalysis data (f2, s2)) as [f3 s3] eqn:H3.
  unfold Math_random.
  destruct (random_feed w (drawn w)) as [r | e] eqn:Hr.
  2:{ unfold ret. intros H; inversion H; subst; cbn; discriminate. }
  unfold ret. intros H Hj. inversion H; subst; clear H.
  cbn in Hj. inversion Hj; subst.
  eexists _, response, data, r. unfold tally.
  rewrite H1, H2, H3.
  repeat split; try eassumption; reflexivity.
Qed.

Local Ltac unchanged :=
  exists [], 0; repeat split;
  [ intros fs s; rewrite app_nil_r, Z.sub_0_r; reflexivity
  | cbn; lia | constructor | cbn; tauto ].

Local Ltac pushed :=
  eexists [_], _; repeat split;
  [ cbn; lia | repeat constructor | cbn; tauto | discriminate ].

Lemma sightengine_aiDetection_step host data :
  exists out p, step_shape (aiDetection host data) "AI Detection" [0; 25; 40] out p.
Proof.
  unfold step_shape, aiDetection.
  destruct (type data) as [t | ]; [ | unchanged].
  destruct (ai_generated t) as [v | ]; [ | unchanged].
  destruct (Qeq_bool v 0); [unchanged | ].
  destruct (gt v lit_0_7); [pushed | ].
  destruct (gt v lit_0_4); [pushed | ].
  exists [{| category := "AI Detection"; status := "positive";
             detail := "Low probability of AI generation or heavy manipulation." |}], 0.
  repeat split; [ intros; rewrite Z.sub_0_r; reflexivity | cbn; lia
                | repeat constructor | cbn; tauto ].
Qed.

Lemma sightengine_imageQuality_step data :
  exists out p, step_shape (imageQuality data) "Image Quality" [0; 15] out p.
Proof.
  unfold step_shape, imageQuality.
  destruct (quality data) as [q | ]; [ | unchanged].
  destruct (match score q with Some v => lt v lit_0_5 | None => false end);
    [pushed | ].
  exists [{| category := "Image Quality"; status := "positive";
             detail := "Image quality consistent with direct capture." |}], 0.
  repeat split; [ intros; rewrite Z.sub_0_r; reflexivity | cbn; lia
                | repeat constructor | cbn; tauto ].
Qed.

Lemma sightengine_contentAnalysis_step data :
  exists out p, step_shape (contentAnalysis data) "Content Analysis" [0; 20] out p.
Proof.
  unfold step_shape, contentAnalysis.
  destruct (faces data) as [fs0 | ]; [ | unchanged].
  destruct (0 <? Z.of_nat (length fs0)); [pushed | unchanged].
Qed.

Lemma sightengine_tally_steps host data a pa q pq c pc :
  step_shape (aiDetection host data) "AI Detection" [0; 25; 40] a pa ->
  step_shape (imageQuality data) "Image Quality" [0; 15] q pq ->
  step_shape (contentAnalysis data) "Content Analysis" [0; 20] c pc ->
  tally host data = ((a ++ q ++ c)%list, 100 - (pa + pq + pc)).
Proof.
  intros [Ha _] [Hq _] [Hc _]. unfold tally.
  rewrite Ha, Hq, Hc. cbn [app]. rewrite <- app_assoc.
  f_equal. lia.
Qed.

Lemma sightengine_known_with_unknown_nonempty name : In name knownSportsbooks -> name <> "".
Proof.
  cbn. intros [<- | [<- | [<- | [<- | [<- | []]]]]]; discriminate.
Qed.

End SightengineFacts.

(** ** The scoring properties *)

Lemma verdict_rule (v : string) (c : Z) :
  v = (if 70 <=? c then "Likely Legitimate" else "Likely Fabricated") ->
  (v = "Likely Legitimate" <-> 70 <= c)
  /\ (v = "Likely Fabricated" <-> c < 70)
  /\ (v = "Likely Legitimate" \/ v = "Likely Fabricated").
Proof.
  intros ->. destruct (Z.leb_spec 70 c).
  - repeat split; intros; try lia; try discriminate; auto.
  - repeat split; intros; try lia; try discriminate; auto.
Qed.

Lemma made_of_confidence rep a b c d :
  made_of rep a b c d ->
  confidence rep
  = Z.max 0 (Z.min 100 (100 - (penalty a + penalty b + penalty c + penalty d))).
Proof.
  intros (_ & Hc & _). rewrite Hc. unfold Math_max, Math_min. f_equal. f_equal. lia.
Qed.

(** C1. Whatever the checks return, the confidence of a report is
    [max(0, min(100, 100 - sum of the penalties))] and so lies between 0
    and 100: in the placeholder and canvas engines for any four checks, in
    the Sightengine handler for the amounts its three steps deduct. *)
Theorem C1_confidence_clamped :
  (forall cm cc cf ct req w resp w' rep,
      Placeholder.engine cm cc cf ct req w = (Normal resp, w') ->
      json resp = ReportPayload rep ->
      0 <= confidence rep <= 100
      /\ exists a b c d w1 w2 w3,
           cm w = (Normal a, w1) /\ cc w1 = (Normal b, w2)
           /\ cf w2 = (Normal c, w3) /\ ct w3 = (Normal d, w')
           /\ confidence rep
              = Z.max 0 (Z.min 100 (100 - (penalty a + penalty b + penalty c + penalty d))))
  /\ (forall cm cc cf ct req w resp w' rep,
         Canvas.engine cm cc cf ct req w = (Normal resp, w') ->
         json resp = ReportPayload rep ->
         0 <= confidence rep <= 100
         /\ exists buf a b c d w1 w2 w3,
              cm buf w = (Normal a, w1) /\ cc buf w1 = (Normal b, w2)
              /\ cf buf w2 = (Normal c, w3) /\ ct buf w3 = (Normal d, w')
              /\ confidence rep
                 = Z.max 0 (Z.min 100 (100 - (penalty a + penalty b + penalty c + penalty d))))
  /\ (forall host req w resp w' rep,
         Sightengine.handler host req w = (Normal resp, w') ->
         json resp = ReportPayload rep ->
         0 <= confidence rep <= 100
         /\ exists data pa pq pc,
              rawData rep = Some data
              /\ (forall fs s, snd (Sightengine.aiDetection host data (fs, s)) = s - pa)
              /\ (forall fs s, snd (Sightengine.imageQuality data (fs, s)) = s - pq)
              /\ (forall fs s, snd (Sightengine.contentAnalysis data (fs, s)) = s - pc)
              /\ confidence rep = Z.max 0 (Z.min 100 (100 - (pa + pq + pc)))).
Proof.
  split; [ | split].
  - intros cm cc cf ct req w resp w' rep Hrun Hjson.
    destruct (PlaceholderFacts.placeholder_report _ _ _ _ _ _ _ _ _ Hrun Hjson)
      as (a & b & c & d & w1 & w2 & w3 & Ha & Hb & Hc & Hd & _ & _ & Hrep).
    pose proof (made_of_confidence _ _ _ _ _ Hrep) as Hconf.
    split; [rewrite Hconf; lia | ].
    exists a, b, c, d, w1, w2, w3. auto.
  - intros cm cc cf ct req w resp w' rep Hrun Hjson.
    destruct (CanvasFacts.canvas_report _ _ _ _ _ _ _ _ _ Hrun Hjson)
      as (buf & a & b & c & d & w1 & w2 & w3 & _ & Ha & Hb & Hc & Hd & _ & _ & Hrep).
    pose proof (made_of_confidence _ _ _ _ _ Hrep) as Hconf.
    split; [rewrite Hconf; lia | ].
    exists buf, a, b, c, d, w1, w2, w3. auto.
  - intros host req w resp w' rep Hrun Hjson.
    destruct (SightengineFacts.sightengine_handler_report _ _ _ _ _ _ Hrun Hjson)
      as (form & response & data & r & _ & _ & _ & _ & _ & _ & Hrep).
    cbv zeta in Hrep. destruct Hrep as (_ & Hconf & _ & _ & Hraw).
    destruct (SightengineFacts.sightengine_aiDetection_step host data) as (oa & pa & Sa).
    destruct (SightengineFacts.sightengine_imageQuality_step data) as (oq & pq & Sq).
    destruct (SightengineFacts.sightengine_contentAnalysis_step data) as (oc & pc & Sc).
    rewrite (SightengineFacts.sightengine_tally_steps _ _ _ _ _ _ _ _ Sa Sq Sc) in Hconf.
    cbn [snd] in Hconf. unfold Math_max, Math_min in Hconf.
    split; [rewrite Hconf; lia | ].
    exists data, pa, pq, pc. repeat split; try assumption.
    + intros fs s. destruct Sa as [E _]. rewrite E. reflexivity.
    + intros fs s. destruct Sq as [E _]. rewrite E. reflexivity.
    + intros fs s. destruct Sc as [E _]. rewrite E. reflexivity.
Qed.

Lemma C1_confidence_clamped_witness :
  (exists rep, report_of (Placeholder.handler post_with_file calm) = Some rep
               /\ 0 <= confidence rep <= 100)
  /\ (exists rep, report_of (Canvas.handler post_with_file calm) = Some rep
                  /\ 0 <= confidence rep <= 100)
  /\ (exists rep,
         report_of (Sightengine.handler (service full_answer) post_with_file calm)
         = Some rep
         /\ 0 <= confidence rep <= 100).
Proof.
  split; [ | split].
  - eexists. split; [reflexivity | ].
    exact (proj1 (proj1 C1_confidence_clamped
                    Placeholder.checkMetadata Placeholder.checkCompression
                    Placeholder.checkFonts Placeholder.checkTemplate
                    post_with_file calm _ _ _ eq_refl eq_refl)).
  - eexists. split; [reflexivity | ].
    exact (proj1 (proj1 (proj2 C1_confidence_clamped)
                    Canvas.checkMetadata Canvas.checkCompression
                    Canvas.checkFonts Canvas.checkTemplate
                    post_with_file calm _ _ _ eq_refl eq_refl)).
  - eexists. split; [reflexivity | ].
    exact (proj1 (proj2 (proj2 C1_confidence_clamped)
                    (service full_answer) post_with_file calm _ _ _
                    eq_refl eq_refl)).
Defined.

(** C2. In every report of the three handlers the verdict is "Likely
    Legitimate" exactly when the confidence is at least 70 and "Likely
    Fabricated" exactly when it is below 70; there is no other verdict. *)
Theorem C2_verdict_threshold :
  forall rep,
    ((exists cm cc cf ct req w resp w',
         Placeholder.engine cm cc cf ct req w = (Normal resp, w')
         /\ json resp = ReportPayload rep)
     \/ (exists cm cc cf ct req w resp w',
            Canvas.engine cm cc cf ct req w = (Normal resp, w')
            /\ json resp = ReportPayload rep)
     \/ (exists host req w resp w',
            Sightengine.handler host req w = (Normal resp, w')
            /\ json resp = ReportPayload rep)) ->
    (verdict rep = "Likely Legitimate" <-> 70 <= confidence rep)
    /\ (verdict rep = "Likely Fabricated" <-> confidence rep < 70)
    /\ (verdict rep = "Likely Legitimate" \/ verdict rep = "Likely Fabricated").
Proof.
  intros rep [H | [H | H]].
  - destruct H as (cm & cc & cf & ct & req & w & resp & w' & Hrun & Hjson).
    destruct (PlaceholderFacts.placeholder_report _ _ _ _ _ _ _ _ _ Hrun Hjson)
      as (a & b & c & d & _ & _ & _ & _ & _ & _ & _ & _ & _ & Hv & Hc & _).
    apply verdict_rule. rewrite Hc. exact Hv.
  - destruct H as (cm & cc & cf & ct & req & w & resp & w' & Hrun & Hjson).
    destruct (CanvasFacts.canvas_report _ _ _ _ _ _ _ _ _ Hrun Hjson)
      as (buf & a & b & c & d & _ & _ & _ & _ & _ & _ & _ & _ & _ & _ & Hv & Hc & _).
    apply verdict_rule. rewrite Hc. exact Hv.
  - destruct H as (host & req & w & resp & w' & Hrun & Hjson).
    destruct (SightengineFacts.sightengine_handler_report _ _ _ _ _ _ Hrun Hjson)
      as (form & response & data & r & _ & _ & _ & _ & _ & _ & Hrep).
    cbv zeta in Hrep. destruct Hrep as (Hv & Hc & _).
    apply verdict_rule. rewrite Hc. exact Hv.
Qed.

Lemma C2_verdict_threshold_witness :
  exists rep,
    report_of (Placeholder.handler post_with_file calm) = Some rep
    /\ (verdict rep = "Likely Legitimate" <-> 70 <= confidence rep)
    /\ (verdict rep = "Likely Fabricated" <-> confidence rep < 70)
    /\ (verdict rep = "Likely Legitimate" \/ verdict rep = "Likely Fabricated").
Proof.
  eexists. split; [reflexivity | ].
  apply C2_verdict_threshold. left.
  exists Placeholder.checkMetadata, Placeholder.checkCompression,
    Placeholder.checkFonts, Placeholder.checkTemplate, post_with_file, calm.
  eexists. eexists. split; reflexivity.
Defined.

(** C3, as the code has it. A report of the placeholder or canvas engine
    lists exactly the four findings of its four checks, in the order the
    checks are called; the canvas handler answers every POST request that
    carries an image with such a four-finding report, whatever fails inside
    its checks. A report of the Sightengine handler lists at most one "AI
    Detection", at most one "Image Quality" and at most one "Content
    Analysis" finding, in this order, followed by the "Layout Analysis"
    finding: between one and four findings. *)
Theorem C3_findings_in_call_order :
  (forall cm cc cf ct req w resp w' rep,
      Placeholder.engine cm cc cf ct req w = (Normal resp, w') ->
      json resp = ReportPayload rep ->
      exists a b c d w1 w2 w3,
        cm w = (Normal a, w1) /\ cc w1 = (Normal b, w2)
        /\ cf w2 = (Normal c, w3) /\ ct w3 = (Normal d, w')
        /\ findings rep = [finding a; finding b; finding c; finding d])
  /\ (forall cm cc cf ct req w resp w' rep,
         Canvas.engine cm cc cf ct req w = (Normal resp, w') ->
         json resp = ReportPayload rep ->
         exists buf a b c d w1 w2 w3,
           cm buf w = (Normal a, w1) /\ cc buf w1 = (Normal b, w2)
           /\ cf buf w2 = (Normal c, w3) /\ ct buf w3 = (Normal d, w')
           /\ findings rep = [finding a; finding b; finding c; finding d])
  /\ (forall req w buf,
         method req = "POST" ->
         supplied_image req = Some buf ->
         exists rep w',
           Canvas.handler req w
           = (Normal (res_status_json 200 (ReportPayload rep)), w')
           /\ length (findings rep) = 4%nat)
  /\ (forall host req w resp w' rep,
         Sightengine.handler host req w = (Normal resp, w') ->
         json resp = ReportPayload rep ->
         exists ai qu fa,
           findings rep = (ai ++ qu ++ fa ++ [layoutFinding (sportsbook rep)])%list
           /\ (length ai <= 1)%nat /\ Forall (fun x => category x = "AI Detection") ai
           /\ (length qu <= 1)%nat /\ Forall (fun x => category x = "Image Quality") qu
           /\ (length fa <= 1)%nat /\ Forall (fun x => category x = "Content Analysis") fa
           /\ (1 <= length (findings rep) <= 4)%nat).
Proof.
  split; [ | split; [ | split]].
  - intros cm cc cf ct req w resp w' rep Hrun Hjson.
    destruct (PlaceholderFacts.placeholder_report _ _ _ _ _ _ _ _ _ Hrun Hjson)
      as (a & b & c & d & w1 & w2 & w3 & Ha & Hb & Hc & Hd & _ & _ & Hrep).
    destruct Hrep as (_ & _ & Hf & _).
    exists a, b, c, d, w1, w2, w3. auto.
  - intros cm cc cf ct req w resp w' rep Hrun Hjson.
    destruct (CanvasFacts.canvas_report _ _ _ _ _ _ _ _ _ Hrun Hjson)
      as (buf & a & b & c & d & w1 & w2 & w3 & _ & Ha & Hb & Hc & Hd & _ & _ & Hrep).
    destruct Hrep as (_ & _ & Hf & _).
    exists buf, a, b, c, d, w1, w2, w3. auto.
  - intros req w buf Hm Hbuf.
    destruct (CanvasFacts.canvas_handler_reports req w buf Hm Hbuf) as (rep & w' & Hrun).
    exists rep, w'. split; [exact Hrun | ].
    destruct (CanvasFacts.canvas_report _ _ _ _ _ _ _ _ rep Hrun eq_refl)
      as (_ & a & b & c & d & _ & _ & _ & _ & _ & _ & _ & _ & _ & _ & Hrep).
    destruct Hrep as (_ & _ & Hf & _). rewrite Hf. reflexivity.
  - intros host req w resp w' rep Hrun Hjson.
    destruct (SightengineFacts.sightengine_handler_report _ _ _ _ _ _ Hrun Hjson)
      as (form & response & data & r & _ & _ & _ & _ & _ & _ & Hrep).
    cbv zeta in Hrep. destruct Hrep as (_ & _ & Hf & Hs & _).
    destruct (SightengineFacts.sightengine_aiDetection_step host data) as (oa & pa & Sa).
    destruct (SightengineFacts.sightengine_imageQuality_step data) as (oq & pq & Sq).
    destruct (SightengineFacts.sightengine_contentAnalysis_step data) as (oc & pc & Sc).
    rewrite (SightengineFacts.sightengine_tally_steps _ _ _ _ _ _ _ _ Sa Sq Sc) in Hf.
    cbn [fst] in Hf. unfold push in Hf. rewrite <- Hs in Hf.
    destruct Sa as (_ & La & Ca & _). destruct Sq as (_ & Lq & Cq & _).
    destruct Sc as (_ & Lc & Cc & _).
    exists oa, oq, oc. rewrite Hf. repeat rewrite <- app_assoc.
    repeat split; try assumption.
    + repeat rewrite length_app. cbn [length]. lia.
    + repeat rewrite length_app. cbn [length]. lia.
Qed.

Lemma C3_findings_in_call_order_witness :
  (exists rep,
      report_of (Placeholder.handler post_with_file calm) = Some rep
      /\ length (findings rep) = 4%nat)
  /\ (exists rep,
         report_of (Canvas.handler post_with_file
                      (runtime_of [Throw {| message := "decoder failed" |};
                                   Throw {| message := "OCR failed" |};
                                   Throw {| message := "no templates" |}]))
         = Some rep
         /\ length (findings rep) = 4%nat)
  /\ (exists rep,
         report_of (Sightengine.handler (service (genai_only 0.9%Q))
                      post_with_file calm) = Some rep
         /\ (1 <= length (findings rep) <= 4)%nat).
Proof.
  split; [ | split].
  - eexists. split; [reflexivity | ].
    destruct (proj1 C3_findings_in_call_order
                Placeholder.checkMetadata Placeholder.checkCompression
                Placeholder.checkFonts Placeholder.checkTemplate
                post_with_file calm _ _ _ eq_refl eq_refl)
      as (a & b & c & d & _ & _ & _ & _ & _ & _ & _ & ->).
    reflexivity.
  - destruct (proj1 (proj2 (proj2 C3_findings_in_call_order))
                post_with_file
                (runtime_of [Throw {| message := "decoder failed" |};
                             Throw {| message := "OCR failed" |};
                             Throw {| message := "no templates" |}])
                "aGVsbG8=" eq_refl eq_refl)
      as (rep & w' & Hrun & Hlen).
    exists rep. rewrite Hrun. split; [reflexivity | exact Hlen].
  - eexists. split; [reflexivity | ].
    destruct (proj2 (proj2 (proj2 C3_findings_in_call_order))
                (service (genai_only 0.9%Q)) post_with_file calm _ _ _
                eq_refl eq_refl)
      as (ai & qu & fa & _ & _ & _ & _ & _ & _ & _ & Hlen).
    exact Hlen.
Defined.

(** C3 fails as stated: the Sightengine handler runs its four checks on
    every request, yet an answer of the service that carries only the
    AI-generation score gives a report of two findings, and a complete
    answer one of four. *)
Lemma C3_counterexample :
  option_map (fun rep => map category (findings rep))
    (report_of (Sightengine.handler (service (genai_only 0.9%Q)) post_with_file calm))
  = Some ["AI Detection"; "Layout Analysis"]
  /\ option_map (fun rep => map category (findings rep))
       (report_of (Sightengine.handler (service full_answer) post_with_file calm))
     = Some ["AI Detection"; "Image Quality"; "Content Analysis"; "Layout Analysis"].
Proof. split; reflexivity. Qed.




Lemma unit_draws_feed (w w' : Runtime) :
  random_feed w' = random_feed w -> unit_draws w -> unit_draws w'.
Proof. unfold unit_draws. intros ->. auto. Qed.

Lemma index_in_range {A : Type} (arr : list A) (i : Z) :
  0 <= i < Z.of_nat (length arr) ->
  exists x, index arr i = Some x /\ In x arr.
Proof.
  intros Hi. unfold index.
  destruct (Z.ltb_spec i 0) as [Hneg | _]; [lia | ].
  destruct (nth_error arr (Z.to_nat i)) as [x | ] eqn:Hx.
  - exists x. split; [reflexivity | eapply nth_error_In; exact Hx].
  - apply nth_error_None in Hx. lia.
Qed.

(** C5, as the code has it. Provided [Math.random] returns doubles of
    [0, 1), the sportsbook of a report is always a non-empty name. In the
    placeholder and canvas verifiers it is the name the template check
    detected among the known sportsbooks when the layout matched, and
    "Unknown" when it did not match or (canvas) when the check failed. The
    Sightengine-backed verifier matches no layout: its sportsbook is the
    name the one draw of the request picks among "FanDuel", "DraftKings",
    "BetMGM", "Caesars" and "Unknown", the name its neutral "Layout
    Analysis" finding quotes. *)
Theorem C5_sportsbook_never_missing :
  (forall req w resp w' rep,
      unit_draws w ->
      Placeholder.handler req w = (Normal resp, w') ->
      json resp = ReportPayload rep ->
      exists name t w3,
        Placeholder.checkTemplate w3 = (Normal t, w')
        /\ nth_error (findings rep) 3 = Some (finding t)
        /\ template_outcome Placeholder.knownSportsbooks t name
        /\ sportsbook rep = Some name /\ name <> "")
  /\ (forall req w resp w' rep,
         unit_draws w ->
         Canvas.handler req w = (Normal resp, w') ->
         json resp = ReportPayload rep ->
         exists name t buf w3,
           Canvas.checkTemplate buf w3 = (Normal t, w')
           /\ nth_error (findings rep) 3 = Some (finding t)
           /\ template_outcome Canvas.knownSportsbooks t name
           /\ sportsbook rep = Some name /\ name <> "")
  /\ (forall host req w resp w' rep,
         double_draws w ->
         Sightengine.handler host req w = (Normal resp, w') ->
         json resp = ReportPayload rep ->
         exists name r,
           random_feed w (drawn w) = Normal r
           /\ index Sightengine.knownSportsbooks (Math_floor (to_double (r * 5)))
              = Some name
           /\ sportsbook rep = Some name /\ name <> ""
           /\ In name Sightengine.knownSportsbooks
           /\ last (findings rep) (layoutFinding None)
              = {| category := "Layout Analysis";
                   status := "neutral";
                   detail := "Analyzing against " ++ name ++ " template patterns." |}).
Proof.
  split; [ | split].
  - intros req w resp w' rep Hunit Hrun Hjson.
    destruct (PlaceholderFacts.placeholder_report _ _ _ _ _ _ _ _ _ Hrun Hjson)
      as (a & b & c & d & w1 & w2 & w3 & Ha & Hb & Hc & Hd & _ & _ & Hrep).
    assert (Hunit3 : unit_draws w3).
    { apply unit_draws_feed with w; [ | exact Hunit].
      rewrite (PlaceholderFacts.placeholder_checkFonts_feed _ _ _ Hc).
      rewrite (PlaceholderFacts.placeholder_checkCompression_feed _ _ _ Hb).
      exact (PlaceholderFacts.placeholder_checkMetadata_feed _ _ _ Ha). }
    destruct (PlaceholderFacts.placeholder_checkTemplate_outcome _ _ _ Hunit3 Hd)
      as (name & Hout & Hor & Hne).
    destruct Hrep as (_ & _ & Hf & Hs & _).
    exists name, d, w3. rewrite Hf, Hs, Hor. repeat split; auto.
  - intros req w resp w' rep Hunit Hrun Hjson.
    destruct (CanvasFacts.canvas_report _ _ _ _ _ _ _ _ _ Hrun Hjson)
      as (buf & a & b & c & d & w1 & w2 & w3 & _ & Ha & Hb & Hc & Hd & _ & _ & Hrep).
    assert (Hunit3 : unit_draws w3).
    { apply unit_draws_feed with w; [ | exact Hunit].
      rewrite (CanvasFacts.canvas_checkFonts_feed _ _ _ _ Hc).
      rewrite (proj1 (CanvasFacts.canvas_checkCompression_runtime _ _ _ _ Hb)).
      rewrite CanvasFacts.canvas_checkMetadata_run in Ha. inversion Ha. reflexivity. }
    destruct (CanvasFacts.canvas_checkTemplate_outcome _ _ _ _ Hunit3 Hd)
      as (name & Hout & Hor & Hne).
    destruct Hrep as (_ & _ & Hf & Hs & _).
    exists name, d, buf, w3. rewrite Hf, Hs, Hor. repeat split; auto.
  - intros host req w resp w' rep Hdraws Hrun Hjson.
    destruct (SightengineFacts.sightengine_handler_report _ _ _ _ _ _ Hrun Hjson)
      as (form & response & data & r & _ & _ & _ & Hr & _ & _ & Hrep).
    cbv zeta in Hrep. destruct Hrep as (_ & _ & Hf & Hs & _).
    destruct (Hdraws _ _ Hr) as [H0 H1].
    destruct (index_in_range Sightengine.knownSportsbooks
                (Math_floor (to_double (r * 5)))
                (floor_of_rounded_product r H0 H1)) as (name & Hidx & Hin).
    rewrite Hidx in Hf, Hs.
    exists name, r. repeat split; auto.
    + apply SightengineFacts.sightengine_known_with_unknown_nonempty; exact Hin.
    + rewrite Hf. unfold push. apply last_last.
Qed.

Lemma calm_unit_draws : unit_draws calm.
Proof.
  intros n q. unfold calm, runtime_of, feed_of. cbn [random_feed].
  do 6 (destruct n as [ | n]; cbn [nth];
        [intros H; inversion H; subst;
         split; [unfold Qle; cbn; lia | unfold Qlt; cbn; lia] | ]).
  intros H; inversion H; subst.
  split; [unfold Qle; cbn; lia | unfold Qlt; cbn; lia].
Qed.

Lemma calm_double_draws : double_draws calm.
Proof.
  intros n q. unfold calm, runtime_of, feed_of. cbn [random_feed].
  do 6 (destruct n as [ | n]; cbn [nth];
        [intros H; inversion H; subst;
         split; [unfold Qle; cbn; lia | unfold Qle; cbn; lia] | ]).
  intros H; inversion H; subst.
  split; [unfold Qle; cbn; lia | unfold Qle; cbn; lia].
Qed.

Lemma C5_sportsbook_never_missing_witness :
  (exists rep,
      report_of (Placeholder.handler post_with_file calm) = Some rep
      /\ exists name, sportsbook rep = Some name /\ name <> "")
  /\ (exists rep,
         report_of (Canvas.handler post_with_file calm) = Some rep
         /\ exists name, sportsbook rep = Some name /\ name <> "")
  /\ (exists rep,
         report_of (Sightengine.handler (service full_answer) post_with_file calm)
         = Some rep
         /\ exists name, sportsbook rep = Some name /\ name <> "").
Proof.
  split; [ | split].
  - eexists. split; [reflexivity | ].
    destruct (proj1 C5_sportsbook_never_missing post_with_file calm _ _ _
                calm_unit_draws eq_refl eq_refl)
      as (name & t & w3 & _ & _ & _ & Hs & Hne).
    exists name. split; assumption.
  - eexists. split; [reflexivity | ].
    destruct (proj1 (proj2 C5_sportsbook_never_missing) post_with_file calm _ _ _
                calm_unit_draws eq_refl eq_refl)
      as (name & t & buf & w3 & _ & _ & _ & Hs & Hne).
    exists name. split; assumption.
  - eexists. split; [reflexivity | ].
    destruct (proj2 (proj2 C5_sportsbook_never_missing)
                (service full_answer) post_with_file calm _ _ _
                calm_double_draws eq_refl eq_refl)
      as (name & r & _ & _ & Hs & Hne & _).
    exists name. split; assumption.
Defined.

(** C5 fails as stated: the Sightengine handler matches no layout, its one
    finding about the layout is neutral, and yet it reports the sportsbook
    its draw picked, here "DraftKings" for an answer of the service that
    tells nothing. This is neither the name of a matched template nor
    "Unknown". *)
Lemma C5_counterexample :
  option_map
    (fun rep => (sportsbook rep, map (fun f => (category f, status f)) (findings rep)))
    (report_of (Sightengine.handler (service empty_answer) post_with_file calm))
  = Some (Some "DraftKings", [("Layout Analysis", "neutral")])
  /\ ~ template_outcome Sightengine.knownSportsbooks
         {| finding := layoutFinding (Some "DraftKings");
            penalty := 0;
            detectedSportsbook := Some "DraftKings" |}
         "DraftKings".
Proof.
  split; [reflexivity | ].
  unfold template_outcome. cbn.
  intros [(H & _) | (_ & _ & H)]; discriminate H.
Qed.

(** The product by 5 is rounded before it is floored: at the draw 0.6,
    a double just below three fifths, the exact product is below 3 and the
    rounded one is 3, so the handler picks "Caesars". *)
Lemma sightengine_pick_at_0_6 :
  (Qfloor ((5404319552844595 # 9007199254740992) * 5) = 2)
  /\ option_map sportsbook
       (report_of (Sightengine.handler (service empty_answer) post_with_file
                     (runtime_of [Normal (5404319552844595 # 9007199254740992)%Q])))
     = Some (Some "Caesars").
Proof. split; reflexivity. Qed.

(** C6, as the code has it. The Sightengine handler (once its credentials
    are configured) and the canvas engine refuse a POST request that
    carries no image: the answer is status 500 with the error "Verification
    failed" (and, for Sightengine, the message "No image file provided"),
    whatever the service or the checks would have done, and no random draw
    is consumed, so no check has run and no finding is computed. The
    placeholder handler reads nothing of a request but its method: two
    requests of the same method get the same answer. *)
Theorem C6_missing_image_refused :
  (forall host req w,
      method req = "POST" ->
      truthy (Sightengine.SIGHTENGINE_API_USER host) = true ->
      truthy (Sightengine.SIGHTENGINE_API_SECRET host) = true ->
      truthy (body_file req) = false ->
      files_upload req = None ->
      Sightengine.handler host req w
      = (Normal (res_status_json 500
                   (ErrorPayload "Verification failed"
                      (Some "No image file provided"))), w))
  /\ (forall cm cc cf ct req w,
         method req = "POST" ->
         supplied_image req = None ->
         exists m,
           Canvas.engine cm cc cf ct req w
           = (Normal (res_status_json 500
                        (ErrorPayload "Verification failed" (Some m))), w))
  /\ (forall req req' w,
         method req = method req' ->
         Placeholder.handler req w = Placeholder.handler req' w).
Proof.
  split; [ | split].
  - intros host req w Hm Hu Hs Hb Hf.
    unfold Sightengine.handler, try_catch, bind.
    rewrite Hm, Hu, Hs, Hb, Hf. reflexivity.
  - intros cm cc cf ct req w Hm Hnone.
    unfold Canvas.engine, try_catch, bind. rewrite Hm.
    cbn [String.eqb Ascii.eqb Bool.eqb negb].
    pose proof (CanvasFacts.canvas_imageBuffer_of_run req w) as Hrun.
    rewrite Hnone in Hrun. destruct Hrun as [e Hrun]. rewrite Hrun.
    exists (message e). reflexivity.
  - intros req req' w Hm.
    unfold Placeholder.handler, Placeholder.engine. rewrite Hm. reflexivity.
Qed.

Lemma C6_missing_image_refused_witness :
  Sightengine.handler (service full_answer) post_without_image calm
  = (Normal (res_status_json 500
               (ErrorPayload "Verification failed"
                  (Some "No image file provided"))), calm)
  /\ (exists m,
         Canvas.handler post_without_image calm
         = (Normal (res_status_json 500
                      (ErrorPayload "Verification failed" (Some m))), calm))
  /\ Placeholder.handler post_without_image calm
     = Placeholder.handler post_with_file calm.
Proof.
  split; [ | split].
  - exact (proj1 C6_missing_image_refused (service full_answer)
             post_without_image calm eq_refl eq_refl eq_refl eq_refl eq_refl).
  - exact (proj1 (proj2 C6_missing_image_refused)
             Canvas.checkMetadata Canvas.checkCompression
             Canvas.checkFonts Canvas.checkTemplate
             post_without_image calm eq_refl eq_refl).
  - exact (proj2 (proj2 C6_missing_image_refused)
             post_without_image post_with_file calm eq_refl).
Defined.

(** C6 fails as stated: the placeholder verifier never reads the request,
    and answers a POST request that carries no image with a report of four
    findings. *)
Lemma C6_counterexample :
  body_file post_without_image = None
  /\ files_upload post_without_image = None
  /\ supplied_image post_without_image = None
  /\ option_map (fun rep => (verdict rep, confidence rep, length (findings rep)))
       (report_of (Placeholder.handler post_without_image calm))
     = Some ("Likely Legitimate", 100, 4%nat).
Proof. repeat split. Qed.

Lemma gt_true (x y : Q) : (y < x)%Q -> gt x y = true.
Proof.
  intros H. unfold gt. destruct (Qle_bool x y) eqn:E; [ | reflexivity].
  apply Qle_bool_iff in E. exfalso. apply (Qlt_not_le _ _ H). exact E.
Qed.

Lemma gt_false (x y : Q) : (x <= y)%Q -> gt x y = false.
Proof.
  intros H. unfold gt. apply Qle_bool_iff in H. rewrite H. reflexivity.
Qed.



Lemma nonzero_false (v : Q) : ~ (v == 0)%Q -> Qeq_bool v 0 = false.
Proof.
  intros H. destruct (Qeq_bool v 0) eqn:E; [ | reflexivity].
  apply Qeq_bool_iff in E. contradiction.
Qed.

(** C7. The AI-generation check bands every non-zero score as stated: above
    0.7 a negative finding and 40 points, above 0.4 and at most 0.7 a
    negative finding and 25 points, at most 0.4 a positive finding and no
    deduction. A score of exactly zero, the lowest of the band that should
    give the positive finding, gives no finding at all: the guard of the
    check takes it for a missing score. *)
Theorem C7_banding_skips_zero_score :
  forall host data t v fs s,
    type data = Some t ->
    ai_generated t = Some v ->
    ((lit_0_7 < v)%Q ->
     Sightengine.aiDetection host data (fs, s)
     = (push fs {| category := "AI Detection";
                   status := "negative";
                   detail := "High probability ("
                               ++ Sightengine.percent_text host v
                               ++ "%) of AI-generated or heavily manipulated content." |},
        s - 40))
    /\ ((lit_0_4 < v)%Q -> (v <= lit_0_7)%Q ->
        Sightengine.aiDetection host data (fs, s)
        = (push fs {| category := "AI Detection";
                      status := "negative";
                      detail := "Moderate probability ("
                                  ++ Sightengine.percent_text host v
                                  ++ "%) of digital manipulation detected." |},
           s - 25))
    /\ ((v <= lit_0_4)%Q -> ~ (v == 0)%Q ->
        Sightengine.aiDetection host data (fs, s)
        = (push fs {| category := "AI Detection";
                      status := "positive";
                      detail := "Low probability of AI generation or heavy manipulation." |},
           s))
    /\ ((v == 0)%Q -> Sightengine.aiDetection host data (fs, s) = (fs, s)).
Proof.
  intros host data t v fs s Ht Hv.
  assert (H47 : (lit_0_4 < lit_0_7)%Q) by reflexivity.
  assert (H04 : (0 < lit_0_4)%Q) by reflexivity.
  unfold Sightengine.aiDetection. rewrite Ht, Hv.
  repeat split.
  - intros H. rewrite nonzero_false, (gt_true _ _ H); [reflexivity | ].
    intros E. rewrite E in H. apply (Qlt_not_le _ _ H). discriminate.
  - intros Hlo Hhi.
    rewrite nonzero_false, (gt_false _ _ Hhi), (gt_true _ _ Hlo); [reflexivity | ].
    intros E. rewrite E in Hlo. apply (Qlt_not_le _ _ Hlo). discriminate.
  - intros Hlo Hnz.
    rewrite (nonzero_false _ Hnz), (gt_false v lit_0_7), (gt_false _ _ Hlo);
      [reflexivity | ].
    apply Qle_trans with lit_0_4; [exact Hlo | apply Qlt_le_weak; exact H47].
  - intros E. apply Qeq_bool_iff in E. rewrite E. reflexivity.
Qed.

Lemma C7_banding_skips_zero_score_witness :
  Sightengine.aiDetection (service (genai_only 0)) (genai_only 0) ([], 100)
  = ([], 100)
  /\ Sightengine.aiDetection (service (genai_only 0.01%Q)) (genai_only 0.01%Q) ([], 100)
     = ([{| category := "AI Detection";
            status := "positive";
            detail := "Low probability of AI generation or heavy manipulation." |}],
        100).
Proof.
  split.
  - exact (proj2 (proj2 (proj2
             (C7_banding_skips_zero_score (service (genai_only 0)) (genai_only 0)
                _ 0%Q [] 100 eq_refl eq_refl))) (Qeq_refl 0)).
  - refine (proj1 (proj2 (proj2
             (C7_banding_skips_zero_score (service (genai_only 0.01%Q))
                (genai_only 0.01%Q) _ 0.01%Q [] 100 eq_refl eq_refl))) _ _).
    + unfold Qle; cbn; lia.
    + unfold Qeq; cbn; lia.
Defined.




(** When the five draws of a request do not fail, the placeholder
    handler answers a POST request with a report. *)
Lemma placeholder_handler_reports req w :
  method req = "POST" ->
  (forall n, (n < 5)%nat -> exists q, random_feed w (drawn w + n) = Normal q) ->
  exists rep w',
    Placeholder.handler req w
    = (Normal (res_status_json 200 (ReportPayload rep)), w').
Proof.
  intros Hm Hdraws.
  destruct (Hdraws 0%nat ltac:(lia)) as [q0 H0].
  destruct (Hdraws 1%nat ltac:(lia)) as [q1 H1].
  destruct (Hdraws 2%nat ltac:(lia)) as [q2 H2].
  destruct (Hdraws 3%nat ltac:(lia)) as [q3 H3].
  destruct (Hdraws 4%nat ltac:(lia)) as [q4 H4].
  replace (drawn w + 0)%nat with (drawn w) in H0 by lia.
  replace (drawn w + 1)%nat with (S (drawn w)) in H1 by lia.
  replace (drawn w + 2)%nat with (S (S (drawn w))) in H2 by lia.
  replace (drawn w + 3)%nat with (S (S (S (drawn w)))) in H3 by lia.
  replace (drawn w + 4)%nat with (S (S (S (S (drawn w))))) in H4 by lia.
  unfold Placeholder.handler, Placeholder.engine, try_catch. rewrite Hm.
  cbn [String.eqb Ascii.eqb Bool.eqb negb].
  unfold Placeholder.checkMetadata, Placeholder.checkCompression,
    Placeholder.checkFonts, Placeholder.checkTemplate, bind, Math_random.
  rewrite H0. destruct (gt q0 lit_0_8); unfold ret at 1; cbn [random_feed drawn];
    rewrite H1; destruct (gt q1 lit_0_7); unfold ret at 1; cbn [random_feed drawn];
    rewrite H2; destruct (gt q2 lit_0_8); unfold ret at 1; cbn [random_feed drawn];
    rewrite H3; cbn [random_feed drawn]; rewrite H4;
    destruct (gt q4 lit_0_3); unfold ret; eauto.
Qed.

(** C9. In the placeholder verifier the four checks return a penalty of
    {0, 30}, {0, 25}, {0, 20} and {0, 25}; so for every report the sum of
    the penalties lies between 0 and 100, the score before the clamp lies
    between 0 and 100, the clamp leaves it unchanged and the confidence is
    exactly 100 minus the sum. Such reports exist: a POST request whose
    five draws do not fail is answered with one. *)
Theorem C9_placeholder_clamp_is_identity :
  (forall w a w', Placeholder.checkMetadata w = (Normal a, w') ->
                  penalty a = 0 \/ penalty a = 30)
  /\ (forall w a w', Placeholder.checkCompression w = (Normal a, w') ->
                     penalty a = 0 \/ penalty a = 25)
  /\ (forall w a w', Placeholder.checkFonts w = (Normal a, w') ->
                     penalty a = 0 \/ penalty a = 20)
  /\ (forall w a w', Placeholder.checkTemplate w = (Normal a, w') ->
                     penalty a = 0 \/ penalty a = 25)
  /\ (forall req w resp w' rep,
         Placeholder.handler req w = (Normal resp, w') ->
         json resp = ReportPayload rep ->
         exists a b c d w1 w2 w3,
           Placeholder.checkMetadata w = (Normal a, w1)
           /\ Placeholder.checkCompression w1 = (Normal b, w2)
           /\ Placeholder.checkFonts w2 = (Normal c, w3)
           /\ Placeholder.checkTemplate w3 = (Normal d, w')
           /\ 0 <= total_penalty [a; b; c; d] <= 100
           /\ 0 <= 100 - total_penalty [a; b; c; d] <= 100
           /\ Math_max 0 (Math_min 100 (100 - total_penalty [a; b; c; d]))
              = 100 - total_penalty [a; b; c; d]
           /\ confidence rep = 100 - total_penalty [a; b; c; d])
  /\ (forall req w,
         method req = "POST" ->
         (forall n, (n < 5)%nat ->
                    exists q, random_feed w (drawn w + n) = Normal q) ->
         exists rep w',
           Placeholder.handler req w
           = (Normal (res_status_json 200 (ReportPayload rep)), w')).
Proof.
  split; [exact PlaceholderFacts.placeholder_checkMetadata_penalty | ].
  split; [exact PlaceholderFacts.placeholder_checkCompression_penalty | ].
  split; [exact PlaceholderFacts.placeholder_checkFonts_penalty | ].
  split; [exact PlaceholderFacts.placeholder_checkTemplate_penalty | ].
  split; [ | exact placeholder_handler_reports].
  intros req w resp w' rep Hrun Hjson.
  destruct (PlaceholderFacts.placeholder_report _ _ _ _ _ _ _ _ _ Hrun Hjson)
    as (a & b & c & d & w1 & w2 & w3 & Ha & Hb & Hc & Hd & _ & _ & Hrep).
  pose proof (PlaceholderFacts.placeholder_checkMetadata_penalty _ _ _ Ha) as Pa.
  pose proof (PlaceholderFacts.placeholder_checkCompression_penalty _ _ _ Hb) as Pb.
  pose proof (PlaceholderFacts.placeholder_checkFonts_penalty _ _ _ Hc) as Pc.
  pose proof (PlaceholderFacts.placeholder_checkTemplate_penalty _ _ _ Hd) as Pd.
  pose proof (made_of_confidence _ _ _ _ _ Hrep) as Hconf.
  exists a, b, c, d, w1, w2, w3.
  unfold total_penalty, Math_max, Math_min. cbn [fold_right].
  repeat split; try assumption; lia.
Qed.

Lemma C9_placeholder_clamp_is_identity_witness :
  (exists rep,
      report_of (Placeholder.handler post_with_file
                   (runtime_of [Normal 0.9%Q; Normal 0.9%Q; Normal 0.9%Q;
                                Normal 0.5%Q; Normal 0.1%Q]))
      = Some rep
      /\ exists a b c d,
           0 <= total_penalty [a; b; c; d] <= 100
           /\ confidence rep = 100 - total_penalty [a; b; c; d])
  /\ (exists rep w',
         Placeholder.handler post_with_file calm
         = (Normal (res_status_json 200 (ReportPayload rep)), w')).
Proof.
  split.
  - eexists. split; [reflexivity | ].
    destruct (proj1 (proj2 (proj2 (proj2 (proj2 C9_placeholder_clamp_is_identity))))
                post_with_file
                (runtime_of [Normal 0.9%Q; Normal 0.9%Q; Normal 0.9%Q;
                             Normal 0.5%Q; Normal 0.1%Q])
                _ _ _ eq_refl eq_refl)
      as (a & b & c & d & w1 & w2 & w3 & _ & _ & _ & _ & Hsum & _ & _ & Hconf).
    exists a, b, c, d. split; assumption.
  - apply (proj2 (proj2 (proj2 (proj2 (proj2 C9_placeholder_clamp_is_identity))))
             post_with_file calm eq_refl).
    intros n Hn. unfold calm, runtime_of, feed_of. cbn [random_feed drawn plus].
    do 5 (destruct n as [ | n]; [cbn [nth]; eexists; reflexivity | ]).
    lia.
Defined.



(** ** Further properties of the handlers *)

(** Destructs the innermost scrutinee of the goal, one at a time. *)
Local Ltac case_scrutinee :=
  match goal with
  | |- context [match ?x with _ => _ end] =>
      lazymatch x with
      | context [match _ with _ => _ end] => fail
      | _ => destruct x eqn:?
      end
  end.

Lemma guarded_shape (work : JS Response) (req : Request) (w : Runtime) :
  (forall resp w', work w = (Normal resp, w') ->
                   exists rep, resp = res_status_json 200 (ReportPayload rep)) ->
  exists resp w',
    (if negb (method req =? "POST")%string then
       ret (res_status_json 405 (ErrorPayload "Method not allowed" None))
     else
       try_catch work
         (fun error =>
            ret (res_status_json 500
                   (ErrorPayload "Verification failed" (Some (message error))))))
      w = (Normal resp, w')
    /\ verify_shape req w resp w'.
Proof.
  intros Hwork. unfold verify_shape.
  destruct (String.eqb_spec (method req) "POST") as [Hm | Hm]; cbn [negb].
  - unfold try_catch, ret. destruct (work w) as [[resp | e] w1] eqn:Hrun.
    + destruct (Hwork _ _ eq_refl) as [rep ->]. eauto 10.
    + eauto 10.
  - unfold ret. eauto 10.
Qed.

(** X1. The three verification handlers always answer, whatever fails
    inside them: a request of a method other than POST gets status 405 and
    leaves the runtime untouched (no check has run); a POST request gets
    either status 200 with a report or status 500 with the error
    "Verification failed" and the message of the failure. *)
Theorem X1_verification_always_answers :
  (forall cm cc cf ct req w,
      exists resp w',
        Placeholder.engine cm cc cf ct req w = (Normal resp, w')
        /\ verify_shape req w resp w')
  /\ (forall cm cc cf ct req w,
         exists resp w',
           Canvas.engine cm cc cf ct req w = (Normal resp, w')
           /\ verify_shape req w resp w')
  /\ (forall host req w,
         exists resp w',
           Sightengine.handler host req w = (Normal resp, w')
           /\ verify_shape req w resp w').
Proof.
  split; [ | split].
  - intros cm cc cf ct req w. unfold Placeholder.engine.
    apply guarded_shape. intros resp w'. unfold bind, ret.
    repeat case_scrutinee; intros H; inversion H; eauto.
  - intros cm cc cf ct req w. unfold Canvas.engine.
    apply guarded_shape. intros resp w'. unfold bind, ret.
    repeat case_scrutinee; intros H; inversion H; eauto.
  - intros host req w. unfold Sightengine.handler.
    apply guarded_shape. intros resp w'.
    unfold bind, ret, throw, Sightengine.await, Math_random.
    repeat case_scrutinee; intros H; inversion H; eauto.
Qed.

(** The runtime after one more call of [Math.random]. *)
Lemma Math_random_run w :
  Math_random w
  = (random_feed w (drawn w),
     {| random_feed := random_feed w; drawn := S (drawn w) |}).
Proof. reflexivity. Qed.

(** What a normal return of each placeholder check tells: the draws it
    made returned, the runtime advanced by them, and the status and
    penalty of the result are one of two pairs. *)
Lemma placeholder_checkMetadata_cases w a w1 :
  Placeholder.checkMetadata w = (Normal a, w1) ->
  (exists q, random_feed w (drawn w) = Normal q)
  /\ random_feed w1 = random_feed w /\ drawn w1 = S (drawn w)
  /\ ((status (finding a), penalty a) = ("negative", 30)
      \/ (status (finding a), penalty a) = ("neutral", 0)).
Proof.
  unfold Placeholder.checkMetadata, bind, Math_random, ret.
  destruct (random_feed w (drawn w)) as [q | e]; [ | discriminate].
  destruct (gt q lit_0_8); intros H; inversion H; subst; cbn; eauto 10.
Qed.

Lemma placeholder_checkCompression_cases w a w1 :
  Placeholder.checkCompression w = (Normal a, w1) ->
  (exists q, random_feed w (drawn w) = Normal q)
  /\ random_feed w1 = random_feed w /\ drawn w1 = S (drawn w)
  /\ ((status (finding a), penalty a) = ("negative", 25)
      \/ (status (finding a), penalty a) = ("positive", 0)).
Proof.
  unfold Placeholder.checkCompression, bind, Math_random, ret.
  destruct (random_feed w (drawn w)) as [q | e]; [ | discriminate].
  destruct (gt q lit_0_7); intros H; inversion H; subst; cbn; eauto 10.
Qed.

Lemma placeholder_checkFonts_cases w a w1 :
  Placeholder.checkFonts w = (Normal a, w1) ->
  (exists q, random_feed w (drawn w) = Normal q)
  /\ random_feed w1 = random_feed w /\ drawn w1 = S (drawn w)
  /\ ((status (finding a), penalty a) = ("negative", 20)
      \/ (status (finding a), penalty a) = ("positive", 0)).
Proof.
  unfold Placeholder.checkFonts, bind, Math_random, ret.
  destruct (random_feed w (drawn w)) as [q | e]; [ | discriminate].
  destruct (gt q lit_0_8); intros H; inversion H; subst; cbn; eauto 10.
Qed.

Lemma placeholder_checkTemplate_cases w a w1 :
  Placeholder.checkTemplate w = (Normal a, w1) ->
  (exists q, random_feed w (drawn w) = Normal q)
  /\ (exists q, random_feed w (S (drawn w)) = Normal q)
  /\ random_feed w1 = random_feed w /\ drawn w1 = S (S (drawn w))
  /\ ((status (finding a), penalty a) = ("negative", 25)
      \/ (status (finding a), penalty a) = ("positive", 0)).
Proof.
  unfold Placeholder.checkTemplate, bind, Math_random, ret.
  destruct (random_feed w (drawn w)) as [q | e]; [ | discriminate].
  cbn [random_feed drawn].
  destruct (random_feed w (S (drawn w))) as [q2 | e]; [ | discriminate].
  destruct (gt q2 lit_0_3); intros H; inversion H; subst; cbn; eauto 10.
Qed.

(** X2. The placeholder handler answers with a report exactly when the
    request is a POST request and its next five calls of [Math.random]
    return; the report has then consumed exactly these five draws. *)
Theorem X2_placeholder_report_iff_five_draws :
  forall req w,
    ((exists rep w',
         Placeholder.handler req w
         = (Normal (res_status_json 200 (ReportPayload rep)), w'))
     <-> (method req = "POST"
          /\ forall n, (n < 5)%nat ->
                       exists q, random_feed w (drawn w + n) = Normal q))
    /\ (forall rep w',
           Placeholder.handler req w
           = (Normal (res_status_json 200 (ReportPayload rep)), w') ->
           random_feed w' = random_feed w /\ drawn w' = (drawn w + 5)%nat).
Proof.
  intros req w.
  assert (Hinv : forall rep w',
             Placeholder.handler req w
             = (Normal (res_status_json 200 (ReportPayload rep)), w') ->
             method req = "POST"
             /\ (forall n, (n < 5)%nat ->
                           exists q, random_feed w (drawn w + n) = Normal q)
             /\ random_feed w' = random_feed w /\ drawn w' = (drawn w + 5)%nat).
  { intros rep w' Hrun.
    destruct (PlaceholderFacts.placeholder_report _ _ _ _ _ _ _ _ rep Hrun eq_refl)
      as (a & b & c & d & w1 & w2 & w3 & Ha & Hb & Hc & Hd & _ & Hm & _).
    destruct (placeholder_checkMetadata_cases _ _ _ Ha) as (Q0 & F1 & D1 & _).
    destruct (placeholder_checkCompression_cases _ _ _ Hb) as (Q1 & F2 & D2 & _).
    destruct (placeholder_checkFonts_cases _ _ _ Hc) as (Q2 & F3 & D3 & _).
    destruct (placeholder_checkTemplate_cases _ _ _ Hd) as (Q3 & Q4 & F4 & D4 & _).
    rewrite F1 in F2. rewrite F2 in F3. rewrite F3 in F4.
    rewrite F1, D1 in Q1. rewrite F2, D2, D1 in Q2.
    rewrite F3, D3, D2, D1 in Q3, Q4.
    split; [exact Hm | ]. split; [ | split; [exact F4 | lia]].
    intros n Hn.
    destruct n as [ | [ | [ | [ | [ | n]]]]]; try lia.
    - replace (drawn w + 0)%nat with (drawn w) by lia. exact Q0.
    - replace (drawn w + 1)%nat with (S (drawn w)) by lia. exact Q1.
    - replace (drawn w + 2)%nat with (S (S (drawn w))) by lia. exact Q2.
    - replace (drawn w + 3)%nat with (S (S (S (drawn w)))) by lia. exact Q3.
    - replace (drawn w + 4)%nat with (S (S (S (S (drawn w))))) by lia. exact Q4. }
  split; [split | ].
  - intros (rep & w' & Hrun). destruct (Hinv _ _ Hrun) as (Hm & Hq & _). auto.
  - intros [Hm Hq]. apply placeholder_handler_reports; assumption.
  - intros rep w' Hrun. destruct (Hinv _ _ Hrun) as (_ & _ & Hf & Hd). auto.
Qed.

Lemma X2_placeholder_report_iff_five_draws_witness :
  exists rep w',
    Placeholder.handler post_with_file calm
    = (Normal (res_status_json 200 (ReportPayload rep)), w')
    /\ drawn w' = 5%nat.
Proof.
  assert (Hdraws : forall n, (n < 5)%nat ->
                             exists q, random_feed calm (drawn calm + n) = Normal q).
  { intros n Hn. unfold calm, runtime_of, feed_of. cbn [random_feed drawn plus].
    do 5 (destruct n as [ | n]; [cbn [nth]; eexists; reflexivity | ]).
    lia. }
  destruct (proj2 (proj1 (X2_placeholder_report_iff_five_draws post_with_file calm))
              (conj eq_refl Hdraws)) as (rep & w' & Hrun).
  exists rep, w'. split; [exact Hrun | ].
  exact (proj2 (proj2 (X2_placeholder_report_iff_five_draws post_with_file calm)
                  rep w' Hrun)).
Defined.

(** X6. In the placeholder verifier a report is "Likely Legitimate"
    exactly when at most one of its four findings is negative: any single
    red flag leaves the confidence at 70 or more, any two bring it to 55
    or less. *)
Theorem X6_placeholder_verdict_by_negatives :
  forall req w resp w' rep,
    Placeholder.handler req w = (Normal resp, w') ->
    json resp = ReportPayload rep ->
    (verdict rep = "Likely Legitimate" <-> (count_negative (findings rep) <= 1)%nat)
    /\ ((count_negative (findings rep) <= 1)%nat -> 70 <= confidence rep)
    /\ ((2 <= count_negative (findings rep))%nat -> confidence rep <= 55).
Proof.
  intros req w resp w' rep Hrun Hjson.
  destruct (PlaceholderFacts.placeholder_report _ _ _ _ _ _ _ _ _ Hrun Hjson)
    as (a & b & c & d & w1 & w2 & w3 & Ha & Hb & Hc & Hd & _ & _ & Hrep).
  destruct (placeholder_checkMetadata_cases _ _ _ Ha) as (_ & _ & _ & Ca).
  destruct (placeholder_checkCompression_cases _ _ _ Hb) as (_ & _ & _ & Cb).
  destruct (placeholder_checkFonts_cases _ _ _ Hc) as (_ & _ & _ & Cc).
  destruct (placeholder_checkTemplate_cases _ _ _ Hd) as (_ & _ & _ & _ & Cd).
  destruct Hrep as (Hv & Hconf & Hf & _).
  rewrite Hv, Hconf, Hf. unfold count_negative. cbn [filter].
  destruct Ca as [Ea | Ea]; inversion Ea as [[Sa Pa]]; rewrite Sa, Pa;
    destruct Cb as [Eb | Eb]; inversion Eb as [[Sb Pb]]; rewrite Sb, Pb;
    destruct Cc as [Ec | Ec]; inversion Ec as [[Sc Pc]]; rewrite Sc, Pc;
    destruct Cd as [Ed | Ed]; inversion Ed as [[Sd Pd]]; rewrite Sd, Pd;
    vm_compute; repeat split; intros; try discriminate; try reflexivity;
    try lia; try congruence.
Qed.

Lemma X6_placeholder_verdict_by_negatives_witness :
  exists rep,
    report_of (Placeholder.handler post_with_file
                 (runtime_of [Normal 0.9%Q; Normal 0.25%Q; Normal 0.25%Q;
                              Normal 0.3%Q; Normal 0.75%Q]))
    = Some rep
    /\ (verdict rep = "Likely Legitimate"
        <-> (count_negative (findings rep) <= 1)%nat).
Proof.
  eexists. split; [reflexivity | ].
  exact (proj1 (X6_placeholder_verdict_by_negatives
                  post_with_file
                  (runtime_of [Normal 0.9%Q; Normal 0.25%Q; Normal 0.25%Q;
                               Normal 0.3%Q; Normal 0.75%Q])
                  _ _ _ eq_refl eq_refl)).
Defined.

(** What each canvas check returns, by the outcome of its draws. *)
Lemma canvas_checkCompression_cases buf w a w1 :
  Canvas.checkCompression buf w = (Normal a, w1) ->
  random_feed w1 = random_feed w /\ drawn w1 = S (drawn w)
  /\ ((exists q, random_feed w (drawn w) = Normal q
                 /\ ((status (finding a), penalty a) = ("negative", 25)
                     \/ (status (finding a), penalty a) = ("positive", 0)))
      \/ (exists e, random_feed w (drawn w) = Throw e
                    /\ category (finding a) = "Compression"
                    /\ (status (finding a), penalty a) = ("neutral", 5))).
Proof.
  unfold Canvas.checkCompression, try_catch, bind, Math_random, ret.
  destruct (random_feed w (drawn w)) as [q | e].
  - destruct (gt q lit_0_7); intros H; inversion H; subst; cbn; eauto 10.
  - intros H; inversion H; subst; cbn; eauto 10.
Qed.

Lemma canvas_checkFonts_cases buf w a w1 :
  Canvas.checkFonts buf w = (Normal a, w1) ->
  random_feed w1 = random_feed w /\ drawn w1 = S (drawn w)
  /\ ((exists q, random_feed w (drawn w) = Normal q
                 /\ ((status (finding a), penalty a) = ("negative", 20)
                     \/ (status (finding a), penalty a) = ("positive", 0)))
      \/ (exists e, random_feed w (drawn w) = Throw e
                    /\ category (finding a) = "Font Analysis"
                    /\ (status (finding a), penalty a) = ("neutral", 5))).
Proof.
  unfold Canvas.checkFonts, try_catch, bind, Math_random, ret.
  destruct (random_feed w (drawn w)) as [q | e].
  - destruct (gt q lit_0_8); intros H; inversion H; subst; cbn; eauto 10.
  - intros H; inversion H; subst; cbn; eauto 10.
Qed.

Lemma canvas_checkTemplate_cases buf w a w1 :
  Canvas.checkTemplate buf w = (Normal a, w1) ->
  random_feed w1 = random_feed w
  /\ ((exists q1 q2,
          random_feed w (drawn w) = Normal q1
          /\ random_feed w (S (drawn w)) = Normal q2
          /\ drawn w1 = S (S (drawn w))
          /\ ((status (finding a), penalty a) = ("negative", 25)
              \/ (status (finding a), penalty a) = ("positive", 0)))
      \/ (exists q1 e,
             random_feed w (drawn w) = Normal q1
             /\ random_feed w (S (drawn w)) = Throw e
             /\ drawn w1 = S (S (drawn w))
             /\ category (finding a) = "Template Matching"
             /\ (status (finding a), penalty a) = ("neutral", 10)
             /\ detectedSportsbook a = Some "Unknown")
      \/ (exists e,
             random_feed w (drawn w) = Throw e
             /\ drawn w1 = S (drawn w)
             /\ category (finding a) = "Template Matching"
             /\ (status (finding a), penalty a) = ("neutral", 10)
             /\ detectedSportsbook a = Some "Unknown")).
Proof.
  unfold Canvas.checkTemplate, try_catch, bind, Math_random, ret.
  destruct (random_feed w (drawn w)) as [q | e].
  - cbn [random_feed drawn].
    destruct (random_feed w (S (drawn w))) as [q2 | e].
    + destruct (gt q2 lit_0_3); intros H; inversion H; subst; cbn;
        (split; [reflexivity | left; eauto 10]).
    + intros H; inversion H; subst; cbn.
      split; [reflexivity | right; left; eauto 10].
  - intros H; inversion H; subst; cbn.
    split; [reflexivity | right; right; eauto 10].
Qed.

(** X7. The penalty of every check result fits the status of its finding,
    in the placeholder and in the canvas verifier: a positive finding
    deducts nothing, a negative finding deducts between 20 and 30 points,
    a neutral finding at most 10. No check ever adds points. *)
Theorem X7_penalty_fits_status :
  (forall w a w', Placeholder.checkMetadata w = (Normal a, w') -> coherent a)
  /\ (forall w a w', Placeholder.checkCompression w = (Normal a, w') -> coherent a)
  /\ (forall w a w', Placeholder.checkFonts w = (Normal a, w') -> coherent a)
  /\ (forall w a w', Placeholder.checkTemplate w = (Normal a, w') -> coherent a)
  /\ (forall buf w a w', Canvas.checkMetadata buf w = (Normal a, w') -> coherent a)
  /\ (forall buf w a w', Canvas.checkCompression buf w = (Normal a, w') -> coherent a)
  /\ (forall buf w a w', Canvas.checkFonts buf w = (Normal a, w') -> coherent a)
  /\ (forall buf w a w', Canvas.checkTemplate buf w = (Normal a, w') -> coherent a).
Proof.
  unfold coherent. repeat split.
  - intros w a w' H.
    destruct (placeholder_checkMetadata_cases _ _ _ H) as (_ & _ & _ & [E | E]);
      inversion E as [[Hs Hp]]; rewrite Hs, Hp; intuition lia.
  - intros w a w' H.
    destruct (placeholder_checkCompression_cases _ _ _ H) as (_ & _ & _ & [E | E]);
      inversion E as [[Hs Hp]]; rewrite Hs, Hp; intuition lia.
  - intros w a w' H.
    destruct (placeholder_checkFonts_cases _ _ _ H) as (_ & _ & _ & [E | E]);
      inversion E as [[Hs Hp]]; rewrite Hs, Hp; intuition lia.
  - intros w a w' H.
    destruct (placeholder_checkTemplate_cases _ _ _ H) as (_ & _ & _ & _ & [E | E]);
      inversion E as [[Hs Hp]]; rewrite Hs, Hp; intuition lia.
  - intros buf w a w' H. rewrite CanvasFacts.canvas_checkMetadata_run in H.
    inversion H; subst. cbn. intuition lia.
  - intros buf w a w' H.
    destruct (canvas_checkCompression_cases _ _ _ _ H)
      as (_ & _ & [(q & _ & [E | E]) | (e & _ & _ & E)]);
      inversion E as [[Hs Hp]]; rewrite Hs, Hp; intuition lia.
  - intros buf w a w' H.
    destruct (canvas_checkFonts_cases _ _ _ _ H)
      as (_ & _ & [(q & _ & [E | E]) | (e & _ & _ & E)]);
      inversion E as [[Hs Hp]]; rewrite Hs, Hp; intuition lia.
  - intros buf w a w' H.
    destruct (canvas_checkTemplate_cases _ _ _ _ H)
      as (_ & [(q1 & q2 & _ & _ & _ & [E | E])
              | [(q1 & e & _ & _ & _ & _ & E & _) | (e & _ & _ & _ & E & _)]]);
      inversion E as [[Hs Hp]]; rewrite Hs, Hp; intuition lia.
Qed.

Lemma X7_penalty_fits_status_witness :
  coherent drifted.
Proof.
  exact (proj1 (proj2 (proj2 (proj2 X7_penalty_fits_status)))
           (runtime_of [Normal 0.3%Q; Normal 0.1%Q]) drifted _ eq_refl).
Defined.

Lemma supplied_image_some (req : Request) :
  (exists buf, supplied_image req = Some buf)
  <-> exists b, body req = Some b /\ (truthy (file b) = true \/ image b <> None).
Proof.
  unfold supplied_image. split.
  - intros [buf H]. destruct (body req) as [b | ]; [ | discriminate].
    exists b. split; [reflexivity | ].
    destruct (truthy (file b)); [left; reflexivity | right; congruence].
  - intros (b & -> & [Ht | Hi]).
    + rewrite Ht. unfold truthy in Ht. destruct (file b) as [f | ]; [eauto | discriminate].
    + destruct (truthy (file b)) eqn:Ht.
      * unfold truthy in Ht. destruct (file b) as [f | ]; [eauto | discriminate].
      * destruct (image b) as [im | ]; [eauto | congruence].
Qed.

(** The runs of the four canvas checks behind a report. *)
Lemma canvas_handler_runs req w rep w' :
  Canvas.handler req w
  = (Normal (res_status_json 200 (ReportPayload rep)), w') ->
  exists buf a b c d w2 w3,
    method req = "POST" /\ supplied_image req = Some buf
    /\ Canvas.checkMetadata buf w = (Normal a, w)
    /\ Canvas.checkCompression buf w = (Normal b, w2)
    /\ Canvas.checkFonts buf w2 = (Normal c, w3)
    /\ Canvas.checkTemplate buf w3 = (Normal d, w')
    /\ random_feed w3 = random_feed w /\ drawn w3 = S (S (drawn w))
    /\ random_feed w2 = random_feed w /\ drawn w2 = S (drawn w)
    /\ made_of rep a b c d.
Proof.
  intros Hrun.
  destruct (CanvasFacts.canvas_report _ _ _ _ _ _ _ _ rep Hrun eq_refl)
    as (buf & a & b & c & d & w1 & w2 & w3 & Hbuf & Ha & Hb & Hc & Hd & _ & Hm & Hrep).
  pose proof Ha as Ha'. rewrite CanvasFacts.canvas_checkMetadata_run in Ha'.
  inversion Ha'; subst w1.
  destruct (canvas_checkCompression_cases _ _ _ _ Hb) as (F2 & D2 & _).
  destruct (canvas_checkFonts_cases _ _ _ _ Hc) as (F3 & D3 & _).
  exists buf, a, b, c, d, w2, w3.
  split; [exact Hm | ]. split; [exact Hbuf | ]. split; [exact Ha | ].
  split; [exact Hb | ]. split; [exact Hc | ]. split; [exact Hd | ].
  split; [congruence | ]. split; [congruence | ].
  split; [exact F2 | ]. split; [exact D2 | exact Hrep].
Qed.

(** X3. The canvas handler answers with a report exactly when the request
    is a POST request whose body carries a non-empty [file] or an [image];
    no failure of a detector prevents the report. The report consumes four
    draws, or three when the first draw of the template check fails. *)
Theorem X3_canvas_report_iff_image :
  forall req w,
    ((exists rep w',
         Canvas.handler req w
         = (Normal (res_status_json 200 (ReportPayload rep)), w'))
     <-> (method req = "POST"
          /\ exists b, body req = Some b
                       /\ (truthy (file b) = true \/ image b <> None)))
    /\ (forall rep w',
           Canvas.handler req w
           = (Normal (res_status_json 200 (ReportPayload rep)), w') ->
           random_feed w' = random_feed w
           /\ (((exists q, random_feed w (drawn w + 2) = Normal q)
                /\ drawn w' = (drawn w + 4)%nat)
               \/ ((exists e, random_feed w (drawn w + 2) = Throw e)
                   /\ drawn w' = (drawn w + 3)%nat))).
Proof.
  intros req w. split; [split | ].
  - intros (rep & w' & Hrun).
    destruct (canvas_handler_runs _ _ _ _ Hrun)
      as (buf & a & b & c & d & w2 & w3 & Hm & Hbuf & _).
    split; [exact Hm | ]. apply supplied_image_some. eauto.
  - intros (Hm & Hb). apply supplied_image_some in Hb. destruct Hb as [buf Hbuf].
    exact (CanvasFacts.canvas_handler_reports req w buf Hm Hbuf).
  - intros rep w' Hrun.
    destruct (canvas_handler_runs _ _ _ _ Hrun)
      as (buf & a & b & c & d & w2 & w3 & _ & _ & _ & _ & _ & Hd & F3 & D3 & _).
    replace (drawn w + 2)%nat with (S (S (drawn w))) by lia.
    destruct (canvas_checkTemplate_cases _ _ _ _ Hd)
      as (F4 & [(q1 & q2 & Q1 & _ & D4 & _)
               | [(q1 & e & Q1 & _ & D4 & _) | (e & Q1 & D4 & _)]]);
      rewrite F3, D3 in Q1; (split; [congruence | ]).
    + left. split; [eauto | lia].
    + left. split; [eauto | lia].
    + right. split; [eauto | lia].
Qed.

Lemma X3_canvas_report_iff_image_witness :
  exists rep w',
    Canvas.handler post_with_file stormy
    = (Normal (res_status_json 200 (ReportPayload rep)), w')
    /\ drawn w' = 3%nat.
Proof.
  destruct (proj2 (proj1 (X3_canvas_report_iff_image post_with_file stormy))
              (conj eq_refl
                 (ex_intro _ {| file := Some "aGVsbG8="; image := None |}
                    (conj eq_refl (or_introl eq_refl)))))
    as (rep & w' & Hrun).
  exists rep, w'. split; [exact Hrun | ].
  destruct (proj2 (X3_canvas_report_iff_image post_with_file stormy) rep w' Hrun)
    as (_ & [((q & Hq) & _) | (_ & Hd)]).
  - discriminate Hq.
  - exact Hd.
Defined.

(** X4. In the canvas verifier the metadata check never finds anything:
    the first finding of every report is the neutral "No strong metadata
    indicators found." and deducts nothing. The other three checks deduct
    at most 70 points together, so the confidence of a report is exactly
    100 minus the penalties and never below 30. *)
Theorem X4_canvas_confidence_at_least_30 :
  forall req w rep w',
    Canvas.handler req w
    = (Normal (res_status_json 200 (ReportPayload rep)), w') ->
    nth_error (findings rep) 0
    = Some {| category := "Metadata";
              status := "neutral";
              detail := "No strong metadata indicators found." |}
    /\ 30 <= confidence rep <= 100
    /\ exists buf a b c d w2 w3,
         Canvas.checkMetadata buf w = (Normal a, w)
         /\ Canvas.checkCompression buf w = (Normal b, w2)
         /\ Canvas.checkFonts buf w2 = (Normal c, w3)
         /\ Canvas.checkTemplate buf w3 = (Normal d, w')
         /\ penalty a = 0
         /\ confidence rep = 100 - total_penalty [a; b; c; d].
Proof.
  intros req w rep w' Hrun.
  destruct (canvas_handler_runs _ _ _ _ Hrun)
    as (buf & a & b & c & d & w2 & w3 & _ & _ & Ha & Hb & Hc & Hd & _ & _ & _ & _ & Hrep).
  assert (Pa : penalty a = 0
               /\ finding a = {| category := "Metadata";
                                 status := "neutral";
                                 detail := "No strong metadata indicators found." |}).
  { rewrite CanvasFacts.canvas_checkMetadata_run in Ha. inversion Ha.
    split; reflexivity. }
  destruct Pa as [Pa Fa].
  assert (Pb : penalty b = 25 \/ penalty b = 0 \/ penalty b = 5).
  { destruct (canvas_checkCompression_cases _ _ _ _ Hb)
      as (_ & _ & [(q & _ & [E | E]) | (e & _ & _ & E)]);
      inversion E; auto. }
  assert (Pc : penalty c = 20 \/ penalty c = 0 \/ penalty c = 5).
  { destruct (canvas_checkFonts_cases _ _ _ _ Hc)
      as (_ & _ & [(q & _ & [E | E]) | (e & _ & _ & E)]);
      inversion E; auto. }
  assert (Pd : penalty d = 25 \/ penalty d = 0 \/ penalty d = 10).
  { destruct (canvas_checkTemplate_cases _ _ _ _ Hd)
      as (_ & [(q1 & q2 & _ & _ & _ & [E | E])
              | [(q1 & e & _ & _ & _ & _ & E & _) | (e & _ & _ & _ & E & _)]]);
      inversion E; auto. }
  pose proof (made_of_confidence _ _ _ _ _ Hrep) as Hconf.
  destruct Hrep as (_ & _ & Hf & _).
  split; [rewrite Hf, <- Fa; reflexivity | ].
  split; [rewrite Hconf; lia | ].
  exists buf, a, b, c, d, w2, w3.
  repeat split; try assumption.
  rewrite Hconf. unfold total_penalty. cbn [fold_right]. lia.
Qed.

Lemma X4_canvas_confidence_at_least_30_witness :
  exists rep w',
    Canvas.handler post_with_file
      (runtime_of [Normal 0.9%Q; Normal 0.9%Q; Normal 0.5%Q; Normal 0.1%Q])
    = (Normal (res_status_json 200 (ReportPayload rep)), w')
    /\ 30 <= confidence rep <= 100.
Proof.
  eexists. eexists. split; [reflexivity | ].
  exact (proj1 (proj2 (X4_canvas_confidence_at_least_30
                         post_with_file
                         (runtime_of [Normal 0.9%Q; Normal 0.9%Q;
                                      Normal 0.5%Q; Normal 0.1%Q])
                         _ _ eq_refl))).
Defined.

(** X12. When every detector of the canvas verifier fails, a POST request
    carrying an image is still answered with a report: four neutral
    findings, 20 points deducted, confidence 80, verdict "Likely
    Legitimate" and sportsbook "Unknown". *)
Theorem X12_canvas_all_detectors_fail :
  forall req w,
    method req = "POST" ->
    (exists b, body req = Some b /\ (truthy (file b) = true \/ image b <> None)) ->
    (forall n, (n < 3)%nat -> exists e, random_feed w (drawn w + n) = Throw e) ->
    exists rep w',
      Canvas.handler req w
      = (Normal (res_status_json 200 (ReportPayload rep)), w')
      /\ map category (findings rep)
         = ["Metadata"; "Compression"; "Font Analysis"; "Template Matching"]
      /\ map status (findings rep) = ["neutral"; "neutral"; "neutral"; "neutral"]
      /\ confidence rep = 80
      /\ verdict rep = "Likely Legitimate"
      /\ sportsbook rep = Some "Unknown".
Proof.
  intros req w Hm Hb Hfail.
  apply supplied_image_some in Hb. destruct Hb as [buf Hbuf].
  destruct (CanvasFacts.canvas_handler_reports req w buf Hm Hbuf)
    as (rep & w' & Hrun).
  exists rep, w'. split; [exact Hrun | ].
  destruct (canvas_handler_runs _ _ _ _ Hrun)
    as (buf' & a & b & c & d & w2 & w3 & _ & _ & Ha & Hb & Hc & Hd
        & F3 & D3 & F2 & D2 & Hrep).
  destruct (Hfail 0%nat ltac:(lia)) as [e0 T0].
  destruct (Hfail 1%nat ltac:(lia)) as [e1 T1].
  destruct (Hfail 2%nat ltac:(lia)) as [e2 T2].
  replace (drawn w + 0)%nat with (drawn w) in T0 by lia.
  replace (drawn w + 1)%nat with (S (drawn w)) in T1 by lia.
  replace (drawn w + 2)%nat with (S (S (drawn w))) in T2 by lia.
  rewrite CanvasFacts.canvas_checkMetadata_run in Ha. inversion Ha; subst a.
  destruct (canvas_checkCompression_cases _ _ _ _ Hb)
    as (_ & _ & [(q & Q & _) | (eb & _ & Cb & Eb)]); [congruence | ].
  destruct (canvas_checkFonts_cases _ _ _ _ Hc)
    as (_ & _ & [(q & Q & _) | (ec & _ & Cc & Ec)]);
    [rewrite F2, D2 in Q; congruence | ].
  destruct (canvas_checkTemplate_cases _ _ _ _ Hd)
    as (_ & [(q1 & q2 & Q & _) | [(q1 & ed & Q & _) | (ed & _ & _ & Cd & Ed & Sd)]]);
    [rewrite F3, D3 in Q; congruence | rewrite F3, D3 in Q; congruence | ].
  inversion Eb as [[Sb Pb]]. inversion Ec as [[Sc Pc]]. inversion Ed as [[Sdd Pd]].
  destruct Hrep as (Hv & Hconf & Hf & Hs & _).
  rewrite Hv, Hconf, Hf, Hs, Sd. cbn [map finding category status penalty].
  rewrite Cb, Cc, Cd, Sb, Sc, Sdd, Pb, Pc, Pd.
  repeat split.
Qed.

Lemma X12_canvas_all_detectors_fail_witness :
  exists rep w',
    Canvas.handler post_with_file stormy
    = (Normal (res_status_json 200 (ReportPayload rep)), w')
    /\ confidence rep = 80
    /\ verdict rep = "Likely Legitimate"
    /\ sportsbook rep = Some "Unknown".
Proof.
  destruct (X12_canvas_all_detectors_fail post_with_file stormy eq_refl
              (ex_intro _ {| file := Some "aGVsbG8="; image := None |}
                 (conj eq_refl (or_introl eq_refl)))
              (fun n _ => ex_intro _ {| message := "detector unavailable" |} eq_refl))
    as (rep & w' & Hrun & _ & _ & Hc & Hv & Hs).
  exists rep, w'. repeat split; assumption.
Defined.

(** The Sightengine handler on a POST request with credentials, step by
    step. *)
Lemma sightengine_handler_eq host req w :
  method req = "POST" ->
  truthy (Sightengine.SIGHTENGINE_API_USER host) = true ->
  truthy (Sightengine.SIGHTENGINE_API_SECRET host) = true ->
  Sightengine.handler host req w
  = match media_of req with
    | None =>
        (Normal (res_status_json 500
                   (ErrorPayload "Verification failed"
                      (Some "No image file provided"))), w)
    | Some media =>
        match Sightengine.fetch host "https://api.sightengine.com/1.0/check.json"
                (form_of host media) with
        | Throw e =>
            (Normal (res_status_json 500
                       (ErrorPayload "Verification failed" (Some (message e)))), w)
        | Normal response =>
            if Sightengine.ok response then
              match Sightengine.json_body response with
              | Throw e =>
                  (Normal (res_status_json 500
                             (ErrorPayload "Verification failed"
                                (Some (message e)))), w)
              | Normal None =>
                  (Normal (res_status_json 500
                             (ErrorPayload "Verification failed"
                                (Some "Cannot read properties of null (reading 'type')"))),
                   w)
              | Normal (Some data) =>
                  match random_feed w (drawn w) with
                  | Throw e =>
                      (Normal (res_status_json 500
                                 (ErrorPayload "Verification failed"
                                    (Some (message e)))),
                       {| random_feed := random_feed w; drawn := S (drawn w) |})
                  | Normal r =>
                      let clamped :=
                        Math_max 0 (Math_min 100 (snd (tally host data))) in
                      let name :=
                        index Sightengine.knownSportsbooks
                              (Math_floor (to_double (r * 5))) in
                      (Normal
                         (res_status_json 200
                            (ReportPayload
                               {| verdict :=
                                    if 70 <=? clamped then "Likely Legitimate"
                                    else "Likely Fabricated";
                                  confidence := clamped;
                                  findings :=
                                    push (fst (tally host data)) (layoutFinding name);
                                  sportsbook := name;
                                  rawData := Some data |})),
                       {| random_feed := random_feed w; drawn := S (drawn w) |})
                  end
              end
            else
              (Normal (res_status_json 500
                         (ErrorPayload "Verification failed"
                            (Some ("Sightengine API error: "
                                     ++ Number_toString
                                          (Sightengine.http_status response))))),
               w)
        end
    end.
Proof.
  intros Hm Hu Hs.
  unfold Sightengine.handler, try_catch, bind. rewrite Hm, Hu, Hs.
  cbn [String.eqb Ascii.eqb Bool.eqb negb orb]. unfold ret at 1.
  assert (Hform :
            (if truthy (body_file req) then
               ret (push [] ("media", interpolate (body_file req)))
             else
               match files_upload req with
               | Some upload =>
                   ret (push [] ("media", interpolate (upload_data upload)))
               | None => throw {| message := "No image file provided" |}
               end) w
            = match media_of req with
              | Some media => (Normal [("media", media)], w)
              | None => (Throw {| message := "No image file provided" |}, w)
              end).
  { unfold media_of. destruct (truthy (body_file req)) eqn:Hb.
    - unfold truthy in Hb. destruct (body_file req); [reflexivity | discriminate].
    - destruct (files_upload req); reflexivity. }
  rewrite Hform. destruct (media_of req) as [media | ]; [ | reflexivity].
  change (push (push (push [("media", media)] ("models", "genai"))
                  ("api_user", interpolate (Sightengine.SIGHTENGINE_API_USER host)))
            ("api_secret", interpolate (Sightengine.SIGHTENGINE_API_SECRET host)))
    with (form_of host media).
  destruct (Sightengine.fetch host _ (form_of host media)) as [response | e];
    cbn [Sightengine.await]; [ | reflexivity].
  unfold ret at 1. destruct (Sightengine.ok response); cbn [negb]; [ | reflexivity].
  unfold ret at 1.
  destruct (Sightengine.json_body response) as [[data | ] | e];
    cbn [Sightengine.await]; [ | reflexivity | reflexivity].
  unfold ret at 1 2. unfold tally. cbv zeta.
  destruct (Sightengine.aiDetection host data ([], 100)) as [f1 s1].
  destruct (Sightengine.imageQuality data (f1, s1)) as [f2 s2].
  destruct (Sightengine.contentAnalysis data (f2, s2)) as [f3 s3].
  unfold Math_random.
  destruct (random_feed w (drawn w)) as [r | e]; reflexivity.
Qed.

Lemma sightengine_credentials_missing host req w :
  method req = "POST" ->
  truthy (Sightengine.SIGHTENGINE_API_USER host) = false
  \/ truthy (Sightengine.SIGHTENGINE_API_SECRET host) = false ->
  Sightengine.handler host req w
  = (Normal (res_status_json 500
               (ErrorPayload "Verification failed"
                  (Some "Sightengine credentials not configured"))), w).
Proof.
  intros Hm Hc.
  unfold Sightengine.handler, try_catch, bind. rewrite Hm.
  cbn [String.eqb Ascii.eqb Bool.eqb negb].
  destruct Hc as [Hc | Hc]; rewrite Hc; cbn [negb orb]; [reflexivity | ].
  rewrite orb_true_r. reflexivity.
Qed.

(** X8. The Sightengine handler checks its credentials first: when the API
    user or the API secret is missing or empty, every POST request is
    answered with status 500 and the message "Sightengine credentials not
    configured", whatever image it carries; the service is not asked and
    no draw is made. *)
Theorem X8_sightengine_credentials_first :
  forall host req w,
    method req = "POST" ->
    truthy (Sightengine.SIGHTENGINE_API_USER host) = false
    \/ truthy (Sightengine.SIGHTENGINE_API_SECRET host) = false ->
    Sightengine.handler host req w
    = (Normal (res_status_json 500
                 (ErrorPayload "Verification failed"
                    (Some "Sightengine credentials not configured"))), w).
Proof.
  intros host req w. apply sightengine_credentials_missing.
Qed.

Lemma X8_sightengine_credentials_first_witness :
  Sightengine.handler unconfigured post_with_file calm
  = (Normal (res_status_json 500
               (ErrorPayload "Verification failed"
                  (Some "Sightengine credentials not configured"))), calm).
Proof.
  exact (X8_sightengine_credentials_first unconfigured post_with_file calm
           eq_refl (or_introl eq_refl)).
Defined.



(** X10. Once the request is accepted, a failure of the Sightengine
    service ends the request with status 500 and the message of that
    failure: when [fetch] rejects, and when the body of a successful
    answer is not JSON. In both cases no draw is made. *)
Theorem X10_sightengine_service_failures :
  forall host req w media,
    method req = "POST" ->
    truthy (Sightengine.SIGHTENGINE_API_USER host) = true ->
    truthy (Sightengine.SIGHTENGINE_API_SECRET host) = true ->
    media_of req = Some media ->
    (forall e,
        Sightengine.fetch host "https://api.sightengine.com/1.0/check.json"
          (form_of host media) = Throw e ->
        Sightengine.handler host req w
        = (Normal (res_status_json 500
                     (ErrorPayload "Verification failed" (Some (message e)))), w))
    /\ (forall response e,
           Sightengine.fetch host "https://api.sightengine.com/1.0/check.json"
             (form_of host media) = Normal response ->
           Sightengine.ok response = true ->
           Sightengine.json_body response = Throw e ->
           Sightengine.handler host req w
           = (Normal (res_status_json 500
                        (ErrorPayload "Verification failed" (Some (message e)))), w)).
Proof.
  intros host req w media Hm Hu Hs Hmedia. split.
  - intros e Hf.
    rewrite (sightengine_handler_eq host req w Hm Hu Hs), Hmedia, Hf. reflexivity.
  - intros response e Hf Hok Hj.
    rewrite (sightengine_handler_eq host req w Hm Hu Hs), Hmedia, Hf, Hok, Hj.
    reflexivity.
Qed.

Lemma X10_sightengine_service_failures_witness :
  Sightengine.handler unreachable post_with_file calm
  = (Normal (res_status_json 500
               (ErrorPayload "Verification failed" (Some "fetch failed"))), calm).
Proof.
  exact (proj1 (X10_sightengine_service_failures unreachable post_with_file calm
                  "aGVsbG8=" eq_refl eq_refl eq_refl eq_refl)
           {| message := "fetch failed" |} eq_refl).
Defined.

Lemma aiDetection_high host data t v fs s :
  type data = Some t ->
  ai_generated t = Some v ->
  (lit_0_7 < v)%Q ->
  snd (Sightengine.aiDetection host data (fs, s)) = s - 40.
Proof.
  intros Ht Hv H. unfold Sightengine.aiDetection. rewrite Ht, Hv.
  rewrite nonzero_false, (gt_true _ _ H); [reflexivity | ].
  intros E. rewrite E in H. apply (Qlt_not_le _ _ H). discriminate.
Qed.

(** X5. In the Sightengine verifier the three score-reducing steps deduct
    at most 75 points together: the confidence of a report is exactly 100
    minus what they deduct and never below 25. A score of AI generation
    above 0.7 alone decides the verdict: the confidence is then at most 60
    and the verdict "Likely Fabricated". *)
Theorem X5_sightengine_confidence_at_least_25 :
  forall host req w resp w' rep,
    Sightengine.handler host req w = (Normal resp, w') ->
    json resp = ReportPayload rep ->
    25 <= confidence rep <= 100
    /\ exists data pa pq pc,
         rawData rep = Some data
         /\ (forall fs s, snd (Sightengine.aiDetection host data (fs, s)) = s - pa)
         /\ (forall fs s, snd (Sightengine.imageQuality data (fs, s)) = s - pq)
         /\ (forall fs s, snd (Sightengine.contentAnalysis data (fs, s)) = s - pc)
         /\ confidence rep = 100 - (pa + pq + pc)
         /\ (forall t v,
                type data = Some t -> ai_generated t = Some v -> (lit_0_7 < v)%Q ->
                confidence rep <= 60 /\ verdict rep = "Likely Fabricated").
Proof.
  intros host req w resp w' rep Hrun Hjson.
  destruct (SightengineFacts.sightengine_handler_report _ _ _ _ _ _ Hrun Hjson)
    as (form & response & data & r & _ & _ & _ & _ & _ & _ & Hrep).
  cbv zeta in Hrep. destruct Hrep as (Hv & Hconf & _ & _ & Hraw).
  destruct (SightengineFacts.sightengine_aiDetection_step host data) as (oa & pa & Sa).
  destruct (SightengineFacts.sightengine_imageQuality_step data) as (oq & pq & Sq).
  destruct (SightengineFacts.sightengine_contentAnalysis_step data) as (oc & pc & Sc).
  rewrite (SightengineFacts.sightengine_tally_steps _ _ _ _ _ _ _ _ Sa Sq Sc)
    in Hconf, Hv.
  cbn [snd] in Hconf, Hv. unfold Math_max, Math_min in Hconf, Hv.
  destruct Sa as (Ea & _ & _ & Ia & _). destruct Sq as (Eq & _ & _ & Iq & _).
  destruct Sc as (Ec & _ & _ & Ic & _).
  cbn [In] in Ia, Iq, Ic.
  assert (Hc : confidence rep = 100 - (pa + pq + pc)) by (rewrite Hconf; lia).
  split; [lia | ].
  exists data, pa, pq, pc.
  split; [exact Hraw | ].
  split; [intros fs s; rewrite Ea; reflexivity | ].
  split; [intros fs s; rewrite Eq; reflexivity | ].
  split; [intros fs s; rewrite Ec; reflexivity | ].
  split; [exact Hc | ].
  intros t v Ht Hval Hhigh.
  pose proof (aiDetection_high host data t v [] 100 Ht Hval Hhigh) as H40.
  rewrite Ea in H40. cbn [snd] in H40.
  assert (pa = 40) by lia. subst pa.
  split; [lia | ].
  rewrite Hv. destruct (Z.leb_spec 70 (Z.max 0 (Z.min 100 (100 - (40 + pq + pc)))));
    [lia | reflexivity].
Qed.

Lemma X5_sightengine_confidence_at_least_25_witness :
  exists rep,
    report_of (Sightengine.handler (service full_answer) post_with_file calm)
    = Some rep
    /\ 25 <= confidence rep <= 100.
Proof.
  eexists. split; [reflexivity | ].
  exact (proj1 (X5_sightengine_confidence_at_least_25
                  (service full_answer) post_with_file calm _ _ _
                  eq_refl eq_refl)).
Defined.

(** X13. An answer of the Sightengine service that tells nothing costs
    nothing: when it carries no AI score (or a score of zero), no quality
    and no face, the report has the single "Layout Analysis" finding,
    confidence 100 and the verdict "Likely Legitimate". *)
Theorem X13_sightengine_silent_answer :
  forall host req w resp w' rep data,
    Sightengine.handler host req w = (Normal resp, w') ->
    json resp = ReportPayload rep ->
    rawData rep = Some data ->
    (type data = None
     \/ exists t, type data = Some t
                  /\ (ai_generated t = None
                      \/ exists v, ai_generated t = Some v /\ (v == 0)%Q)) ->
    quality data = None ->
    (faces data = None \/ faces data = Some []) ->
    findings rep = [layoutFinding (sportsbook rep)]
    /\ confidence rep = 100
    /\ verdict rep = "Likely Legitimate".
Proof.
  intros host req w resp w' rep data Hrun Hjson Hraw Hai Hq Hf.
  destruct (SightengineFacts.sightengine_handler_report _ _ _ _ _ _ Hrun Hjson)
    as (form & response & data' & r & _ & _ & _ & _ & _ & _ & Hrep).
  cbv zeta in Hrep. destruct Hrep as (Hv & Hconf & Hfind & Hs & Hraw').
  rewrite Hraw in Hraw'. inversion Hraw'; subst data'.
  assert (Htally : tally host data = ([], 100)).
  { unfold tally.
    assert (Ha : Sightengine.aiDetection host data ([], 100) = ([], 100)).
    { unfold Sightengine.aiDetection.
      destruct Hai as [-> | (t & -> & [-> | (v & -> & Hz)])]; try reflexivity.
      apply Qeq_bool_iff in Hz. rewrite Hz. reflexivity. }
    rewrite Ha. unfold Sightengine.imageQuality. rewrite Hq.
    unfold Sightengine.contentAnalysis. destruct Hf as [-> | ->]; reflexivity. }
  rewrite Htally in Hv, Hconf, Hfind. cbn [fst snd] in Hv, Hconf, Hfind.
  rewrite Hs. split; [exact Hfind | ]. split; [exact Hconf | exact Hv].
Qed.

Lemma X13_sightengine_silent_answer_witness :
  exists rep,
    report_of (Sightengine.handler (service empty_answer) post_with_file calm)
    = Some rep
    /\ confidence rep = 100
    /\ verdict rep = "Likely Legitimate".
Proof.
  eexists. split; [reflexivity | ].
  exact (proj2 (X13_sightengine_silent_answer
                  (service empty_answer) post_with_file calm _ _ _ empty_answer
                  eq_refl eq_refl eq_refl (or_introl eq_refl) eq_refl
                  (or_intror eq_refl))).
Defined.

(** X11. The engine is monotone in the penalties: if each of four fixed
    check results is replaced by one that deducts at least as much, the
    confidence does not rise, and a verdict "Likely Fabricated" stays
    "Likely Fabricated". This holds for the placeholder engine and, given
    an image, for the canvas engine. *)
Theorem X11_engine_monotone :
  forall a b c d a' b' c' d' req w,
    method req = "POST" ->
    penalty a <= penalty a' -> penalty b <= penalty b' ->
    penalty c <= penalty c' -> penalty d <= penalty d' ->
    (exists rep rep',
        Placeholder.engine (ret a) (ret b) (ret c) (ret d) req w
        = (Normal (res_status_json 200 (ReportPayload rep)), w)
        /\ Placeholder.engine (ret a') (ret b') (ret c') (ret d') req w
           = (Normal (res_status_json 200 (ReportPayload rep')), w)
        /\ confidence rep' <= confidence rep
        /\ (verdict rep = "Likely Fabricated" -> verdict rep' = "Likely Fabricated"))
    /\ (forall buf,
           supplied_image req = Some buf ->
           exists rep rep',
             Canvas.engine (fun _ => ret a) (fun _ => ret b)
                           (fun _ => ret c) (fun _ => ret d) req w
             = (Normal (res_status_json 200 (ReportPayload rep)), w)
             /\ Canvas.engine (fun _ => ret a') (fun _ => ret b')
                              (fun _ => ret c') (fun _ => ret d') req w
                = (Normal (res_status_json 200 (ReportPayload rep')), w)
             /\ confidence rep' <= confidence rep
             /\ (verdict rep = "Likely Fabricated" ->
                 verdict rep' = "Likely Fabricated")).
Proof.
  intros a b c d a' b' c' d' req w Hm La Lb Lc Ld.
  assert (Hmono :
            let x := Math_max 0 (Math_min 100
                       (100 - penalty a - penalty b - penalty c - penalty d)) in
            let y := Math_max 0 (Math_min 100
                       (100 - penalty a' - penalty b' - penalty c' - penalty d')) in
            Math_round y <= Math_round x
            /\ ((if 70 <=? x then "Likely Legitimate" else "Likely Fabricated")
                = "Likely Fabricated" ->
                (if 70 <=? y then "Likely Legitimate" else "Likely Fabricated")
                = "Likely Fabricated")).
  { cbv zeta. unfold Math_max, Math_min, Math_round. split; [lia | ].
    destruct (Z.leb_spec 70 (Z.max 0 (Z.min 100
                (100 - penalty a - penalty b - penalty c - penalty d))));
      [discriminate | ].
    destruct (Z.leb_spec 70 (Z.max 0 (Z.min 100
                (100 - penalty a' - penalty b' - penalty c' - penalty d'))));
      [lia | reflexivity]. }
  cbv zeta in Hmono. destruct Hmono as [Hle Hverdict].
  split.
  - unfold Placeholder.engine, try_catch, bind, ret. rewrite Hm.
    cbn [String.eqb Ascii.eqb Bool.eqb negb].
    eexists. eexists. split; [reflexivity | ]. split; [reflexivity | ].
    cbn [confidence verdict]. split; [exact Hle | exact Hverdict].
  - intros buf Hbuf.
    unfold Canvas.engine, try_catch, bind. rewrite Hm.
    cbn [String.eqb Ascii.eqb Bool.eqb negb].
    pose proof (CanvasFacts.canvas_imageBuffer_of_run req w) as Hrun.
    rewrite Hbuf in Hrun. rewrite Hrun. unfold ret.
    eexists. eexists. split; [reflexivity | ]. split; [reflexivity | ].
    cbn [confidence verdict]. split; [exact Hle | exact Hverdict].
Qed.

Lemma X11_engine_monotone_witness :
  exists rep rep',
    Placeholder.engine (ret uniform) (ret uniform) (ret mismatched) (ret drifted)
                       post_with_file calm
    = (Normal (res_status_json 200 (ReportPayload rep)), calm)
    /\ Placeholder.engine (ret edited) (ret uniform) (ret mismatched) (ret drifted)
                          post_with_file calm
       = (Normal (res_status_json 200 (ReportPayload rep')), calm)
    /\ confidence rep' <= confidence rep
    /\ (verdict rep = "Likely Fabricated" -> verdict rep' = "Likely Fabricated").
Proof.
  refine (proj1 (X11_engine_monotone
                   uniform uniform mismatched drifted
                   edited uniform mismatched drifted
                   post_with_file calm eq_refl _ _ _ _));
    cbn; lia.
Defined.

(** ** The extraction handler *)

(** The extraction handler on a POST request with a body, step by step. *)
Lemma extract_handler_eq host req b w :
  Extract.req_method req = "POST" ->
  Extract.req_body req = Some b ->
  Extract.handler host req w
  = match Extract.fetch host "https://api.veryfi.com/api/v8/partner/documents/"
            {| Extract.init_method := "POST";
               Extract.headers :=
                 [("Content-Type", "application/json");
                  ("CLIENT-ID", interpolate (Extract.VERYFI_CLIENT_ID host));
                  ("AUTHORIZATION",
                   "apikey " ++ interpolate (Extract.VERYFI_USERNAME host) ++ ":"
                     ++ interpolate (Extract.VERYFI_API_KEY host))];
               Extract.init_body :=
                 {| Extract.file_name := or_else (Extract.filename b) "bet_slip.jpg";
                    Extract.file_data := Extract.image b;
                    Extract.categories := ["receipt"; "sports"];
                    Extract.auto_delete := true |} |} with
    | Throw e =>
        (Normal (Extract.res_status_json 500
                   (Extract.ExtractError "Failed to process bet slip"
                      (Some (message e)))), w)
    | Normal response =>
        if Extract.ok response then
          match Extract.json_body response with
          | Throw e =>
              (Normal (Extract.res_status_json 500
                         (Extract.ExtractError "Failed to process bet slip"
                            (Some (message e)))), w)
          | Normal None =>
              (Normal (Extract.res_status_json 500
                         (Extract.ExtractError "Failed to process bet slip"
                            (Some "Cannot read properties of null (reading 'vendor')"))),
               w)
          | Normal (Some data) =>
              (Normal
                 (Extract.res_status_json 200
                    (Extract.Extracted
                       {| Extract.sportsbook :=
                            or_else (match Extract.vendor data with
                                     | Some v => Extract.name v
                                     | None => None
                                     end) "Unknown";
                          Extract.amount := Extract.or_zero (Extract.total data);
                          Extract.extracted_date :=
                            or_else (Extract.date data)
                                    (Extract.split_head "T"
                                       (Extract.toISOString_now host));
                          Extract.rawData := data |})), w)
          end
        else
          (Normal (Extract.res_status_json 500
                     (Extract.ExtractError "Failed to process bet slip"
                        (Some ("Veryfi API error: "
                                 ++ Number_toString (Extract.http_status response))))),
           w)
    end.
Proof.
  intros Hm Hb. unfold Extract.handler, try_catch, bind. rewrite Hm, Hb.
  cbn [String.eqb Ascii.eqb Bool.eqb negb]. unfold ret at 1.
  match goal with
  | |- context [Extract.await (Extract.fetch host ?u ?i)] =>
      destruct (Extract.fetch host u i) as [response | e]
  end; cbn [Extract.await]; [ | reflexivity].
  unfold ret at 1. destruct (Extract.ok response); cbn [negb]; [ | reflexivity].
  unfold ret at 1.
  destruct (Extract.json_body response) as [[data | ] | e]; reflexivity.
Qed.

(** X14. The extraction handler always answers and never draws a random
    number: a request of a method other than POST gets status 405 without
    the service being asked; a POST request gets status 200 with the
    extracted data or status 500 with the error "Failed to process bet
    slip" and the message of the failure. *)
Theorem X14_extraction_always_answers :
  forall host req w,
    exists resp,
      Extract.handler host req w = (Normal resp, w)
      /\ ((Extract.req_method req <> "POST"
           /\ resp = Extract.res_status_json 405
                       (Extract.ExtractError "Method not allowed" None))
          \/ (Extract.req_method req = "POST"
              /\ exists d, resp = Extract.res_status_json 200 (Extract.Extracted d))
          \/ (Extract.req_method req = "POST"
              /\ exists m,
                   resp = Extract.res_status_json 500
                            (Extract.ExtractError "Failed to process bet slip"
                               (Some m)))).
Proof.
  intros host req w.
  destruct (String.eqb_spec (Extract.req_method req) "POST") as [Hm | Hm].
  - destruct (Extract.req_body req) as [b | ] eqn:Hb.
    + rewrite (extract_handler_eq host req b w Hm Hb).
      repeat case_scrutinee; eauto 10.
    + unfold Extract.handler, try_catch, bind. rewrite Hm, Hb.
      cbn [String.eqb Ascii.eqb Bool.eqb negb]. unfold throw, ret. eauto 10.
  - unfold Extract.handler. apply String.eqb_neq in Hm. rewrite Hm.
    cbn [negb]. apply String.eqb_neq in Hm. unfold ret. eauto 10.
Qed.

(** X15. How the extraction handler fails: a POST request without a body
    ends with status 500; so does a rejected call of the service, with
    the message of the rejection; an answer of the service that is not a
    success, with the message "Veryfi API error: " followed by the status;
    and an answer whose JSON body is [null]. *)
Theorem X15_extraction_failures :
  (forall host req w,
      Extract.req_method req = "POST" ->
      Extract.req_body req = None ->
      exists m,
        Extract.handler host req w
        = (Normal (Extract.res_status_json 500
                     (Extract.ExtractError "Failed to process bet slip" (Some m))),
           w))
  /\ (forall host req b w answer,
         Extract.req_method req = "POST" ->
         Extract.req_body req = Some b ->
         (forall url init, Extract.fetch host url init = answer) ->
         match answer with
         | Throw e =>
             Extract.handler host req w
             = (Normal (Extract.res_status_json 500
                          (Extract.ExtractError "Failed to process bet slip"
                             (Some (message e)))), w)
         | Normal response =>
             (Extract.ok response = false ->
              Extract.handler host req w
              = (Normal (Extract.res_status_json 500
                           (Extract.ExtractError "Failed to process bet slip"
                              (Some ("Veryfi API error: "
                                       ++ Number_toString
                                            (Extract.http_status response))))), w))
             /\ (Extract.ok response = true ->
                 Extract.json_body response = Normal None ->
                 exists m,
                   Extract.handler host req w
                   = (Normal (Extract.res_status_json 500
                                (Extract.ExtractError "Failed to process bet slip"
                                   (Some m))), w))
         end).
Proof.
  split.
  - intros host req w Hm Hb.
    unfold Extract.handler, try_catch, bind. rewrite Hm, Hb.
    cbn [String.eqb Ascii.eqb Bool.eqb negb]. eexists. reflexivity.
  - intros host req b w answer Hm Hb Hfetch.
    rewrite (extract_handler_eq host req b w Hm Hb), Hfetch.
    destruct answer as [response | e]; [ | reflexivity].
    split.
    + intros ->. reflexivity.
    + intros -> ->. eexists. reflexivity.
Qed.

Lemma X15_extraction_failures_witness :
  (exists m,
      Extract.handler ocr {| Extract.req_method := "POST";
                             Extract.req_body := None |} calm
      = (Normal (Extract.res_status_json 500
                   (Extract.ExtractError "Failed to process bet slip" (Some m))),
         calm))
  /\ Extract.handler ocr_down slip_post calm
     = (Normal (Extract.res_status_json 500
                  (Extract.ExtractError "Failed to process bet slip"
                     (Some "Veryfi API error: 401"))), calm).
Proof.
  split.
  - exact (proj1 X15_extraction_failures ocr
             {| Extract.req_method := "POST"; Extract.req_body := None |} calm
             eq_refl eq_refl).
  - exact (proj1 (proj2 X15_extraction_failures ocr_down slip_post _ calm
                    (Normal {| Extract.ok := false;
                               Extract.http_status := 401;
                               Extract.json_body := Normal None |})
                    eq_refl eq_refl (fun _ _ => eq_refl))
             eq_refl).
Defined.

Lemma or_else_never_empty (a : option string) (d : string) :
  d <> "" -> or_else a d <> "".
Proof.
  intros Hd. unfold or_else, truthy. destruct a as [s | ]; [ | exact Hd].
  destruct (String.eqb_spec s ""); cbn [negb]; assumption.
Qed.

Lemma or_else_falsy (a : option string) (d : string) :
  a = None \/ a = Some "" -> or_else a d = d.
Proof. intros [-> | ->]; reflexivity. Qed.

Lemma split_head_no_sep (sep : ascii) (s : string) :
  occurs sep (Extract.split_head sep s) = false.
Proof.
  induction s as [ | c s IH]; cbn [Extract.split_head occurs]; [reflexivity | ].
  destruct (Ascii.eqb c sep) eqn:E; cbn [occurs]; [reflexivity | ].
  rewrite E, IH. reflexivity.
Qed.

Lemma split_head_prefix (sep : ascii) (s : string) :
  exists rest,
    s = Extract.split_head sep s ++ rest
    /\ (rest = "" \/ exists r, rest = String sep r).
Proof.
  induction s as [ | c s (rest & Hs & Hrest)]; cbn [Extract.split_head].
  - exists "". split; [reflexivity | left; reflexivity].
  - destruct (Ascii.eqb_spec c sep) as [-> | Hne].
    + exists (String sep s). split; [reflexivity | right; eauto].
    + exists rest. split; [cbn [append]; f_equal; exact Hs | exact Hrest].
Qed.

Lemma split_head_whole (sep : ascii) (s : string) :
  occurs sep s = false -> Extract.split_head sep s = s.
Proof.
  induction s as [ | c s IH]; cbn [Extract.split_head occurs]; [reflexivity | ].
  destruct (Ascii.eqb c sep); cbn [orb]; [discriminate | ].
  intros H. rewrite (IH H). reflexivity.
Qed.

(** X18. [split_head sep s], the [s.split(sep)[0]] of the extraction
    handler, is the part of [s] before the first [sep]: it contains no
    [sep], [s] is this part followed by nothing or by a text that starts
    with [sep], and a text without [sep] is returned whole. *)
Theorem X18_split_head_is_the_part_before :
  forall sep s,
    occurs sep (Extract.split_head sep s) = false
    /\ (exists rest,
           s = Extract.split_head sep s ++ rest
           /\ (rest = "" \/ exists r, rest = String sep r))
    /\ (occurs sep s = false -> Extract.split_head sep s = s).
Proof.
  intros sep s. split; [apply split_head_no_sep | ].
  split; [apply split_head_prefix | apply split_head_whole].
Qed.

Lemma X18_split_head_is_the_part_before_witness :
  Extract.split_head "-" "20240309" = "20240309".
Proof.
  exact (proj2 (proj2 (X18_split_head_is_the_part_before "-" "20240309")) eq_refl).
Defined.

(** X16. What a successful extraction returns, in terms of the document
    of the service, which it carries as [rawData]: the sportsbook is the
    vendor's name when there is a non-empty one and "Unknown" otherwise,
    so it is never empty; the amount is the total when there is a non-zero
    one and 0 otherwise; the date is the document's date when there is a
    non-empty one, and otherwise the part of the current ISO timestamp
    before its "T". The document is what the service answered, with
    success, to the call of the handler. *)
Theorem X16_extracted_fields :
  forall host req w d w',
    Extract.handler host req w
    = (Normal (Extract.res_status_json 200 (Extract.Extracted d)), w') ->
    let raw := Extract.rawData d in
    Extract.sportsbook d <> ""
    /\ (forall v n, Extract.vendor raw = Some v -> Extract.name v = Some n ->
                    n <> "" -> Extract.sportsbook d = n)
    /\ (Extract.vendor raw = None
        \/ (exists v, Extract.vendor raw = Some v
                      /\ (Extract.name v = None \/ Extract.name v = Some "")) ->
        Extract.sportsbook d = "Unknown")
    /\ (forall t, Extract.total raw = Some t -> ~ (t == 0)%Q -> Extract.amount d = t)
    /\ (Extract.total raw = None
        \/ (exists t, Extract.total raw = Some t /\ (t == 0)%Q) ->
        Extract.amount d = 0%Q)
    /\ (forall s, Extract.date raw = Some s -> s <> "" -> Extract.extracted_date d = s)
    /\ (Extract.date raw = None \/ Extract.date raw = Some "" ->
        Extract.extracted_date d
        = Extract.split_head "T" (Extract.toISOString_now host)
        /\ occurs "T" (Extract.extracted_date d) = false)
    /\ (exists url init response,
           Extract.fetch host url init = Normal response
           /\ Extract.ok response = true
           /\ Extract.json_body response = Normal (Some raw)).
Proof.
  intros host req w d w' Hrun. cbv zeta.
  destruct (String.eqb_spec (Extract.req_method req) "POST") as [Hm | Hm].
  2:{ unfold Extract.handler in Hrun. apply String.eqb_neq in Hm.
      rewrite Hm in Hrun. discriminate Hrun. }
  destruct (Extract.req_body req) as [b | ] eqn:Hb.
  2:{ unfold Extract.handler, try_catch, bind in Hrun. rewrite Hm, Hb in Hrun.
      discriminate Hrun. }
  rewrite (extract_handler_eq host req b w Hm Hb) in Hrun.
  match type of Hrun with
  | context [Extract.fetch host ?u ?i] =>
      destruct (Extract.fetch host u i) as [response | e] eqn:Hfetch
  end; [ | discriminate Hrun].
  destruct (Extract.ok response) eqn:Hok; [ | discriminate Hrun].
  destruct (Extract.json_body response) as [[data | ] | e] eqn:Hjson;
    try discriminate Hrun.
  inversion Hrun; subst; clear Hrun.
  cbn [Extract.sportsbook Extract.amount Extract.extracted_date Extract.rawData].
  split; [apply or_else_never_empty; discriminate | ].
  split; [intros v n -> ->; apply or_else_some | ].
  split.
  { intros [-> | (v & -> & Hn)]; [reflexivity | ]. apply or_else_falsy. exact Hn. }
  split.
  { intros t -> Hnz. unfold Extract.or_zero. rewrite (nonzero_false _ Hnz).
    reflexivity. }
  split.
  { intros [-> | (t & -> & Hz)]; [reflexivity | ].
    unfold Extract.or_zero. apply Qeq_bool_iff in Hz. rewrite Hz. reflexivity. }
  split; [intros s ->; apply or_else_some | ].
  split.
  { intros Hd. rewrite (or_else_falsy _ _ Hd).
    split; [reflexivity | apply split_head_no_sep]. }
  eauto 10.
Qed.

Lemma X16_extracted_fields_witness :
  exists d,
    Extract.handler ocr slip_post calm
    = (Normal (Extract.res_status_json 200 (Extract.Extracted d)), calm)
    /\ Extract.sportsbook d = "bet_slip.jpg"
    /\ Extract.extracted_date d = "2024-03-09".
Proof.
  eexists. split; [reflexivity | ].
  split.
  - exact (proj1 (proj2 (X16_extracted_fields ocr slip_post calm _ calm eq_refl))
             _ "bet_slip.jpg" eq_refl eq_refl ltac:(discriminate)).
  - exact (proj1 (proj1 (proj2 (proj2 (proj2 (proj2 (proj2 (proj2
             (X16_extracted_fields ocr slip_post calm _ calm eq_refl)))))))
             (or_introl eq_refl))).
Defined.

(** X17. What the extraction handler asks the service: for a POST request
    with a body the answer of the handler depends on the service only
    through its answer to one call, a POST of a document whose
    [file_name] is the [filename] of the request when that is not empty
    and "bet_slip.jpg" otherwise, whose [file_data] is the [image] of the
    request, and which asks for deletion after processing; the call
    carries the client id and the "apikey user:key" authorization. *)
Theorem X17_extraction_call :
  forall host req b w,
    Extract.req_method req = "POST" ->
    Extract.req_body req = Some b ->
    exists init,
      Extract.handler host req w
      = Extract.handler
          (answering host
             (Extract.fetch host
                "https://api.veryfi.com/api/v8/partner/documents/" init))
          req w
      /\ Extract.init_method init = "POST"
      /\ Extract.headers init
         = [("Content-Type", "application/json");
            ("CLIENT-ID", interpolate (Extract.VERYFI_CLIENT_ID host));
            ("AUTHORIZATION",
             "apikey " ++ interpolate (Extract.VERYFI_USERNAME host) ++ ":"
               ++ interpolate (Extract.VERYFI_API_KEY host))]
      /\ Extract.file_name (Extract.init_body init) <> ""
      /\ (forall f, Extract.filename b = Some f -> f <> "" ->
                    Extract.file_name (Extract.init_body init) = f)
      /\ (Extract.filename b = None \/ Extract.filename b = Some "" ->
          Extract.file_name (Extract.init_body init) = "bet_slip.jpg")
      /\ Extract.file_data (Extract.init_body init) = Extract.image b
      /\ Extract.categories (Extract.init_body init) = ["receipt"; "sports"]
      /\ Extract.auto_delete (Extract.init_body init) = true.
Proof.
  intros host req b w Hm Hb.
  eexists. split.
  - rewrite (extract_handler_eq host req b w Hm Hb).
    rewrite (extract_handler_eq (answering host _) req b w Hm Hb).
    cbn [answering Extract.fetch Extract.VERYFI_CLIENT_ID Extract.VERYFI_USERNAME
                   Extract.VERYFI_API_KEY Extract.toISOString_now].
    reflexivity.
  - cbn [Extract.init_method Extract.headers Extract.init_body Extract.file_name
                             Extract.file_data Extract.categories Extract.auto_delete].
    split; [reflexivity | ]. split; [reflexivity | ].
    split; [apply or_else_never_empty; discriminate | ].
    split; [intros f ->; apply or_else_some | ].
    split; [apply or_else_falsy | ].
    repeat split.
Qed.

Lemma X17_extraction_call_witness :
  exists init,
    Extract.handler ocr slip_post calm
    = Extract.handler
        (answering ocr
           (Extract.fetch ocr
              "https://api.veryfi.com/api/v8/partner/documents/" init))
        slip_post calm
    /\ Extract.file_name (Extract.init_body init) = "bet_slip.jpg"
    /\ Extract.auto_delete (Extract.init_body init) = true.
Proof.
  destruct (X17_extraction_call ocr slip_post
              {| Extract.image := Some "aGVsbG8="; Extract.filename := None |}
              calm eq_refl eq_refl)
    as (init & Hsame & _ & _ & _ & _ & Hname & _ & _ & Hdel).
  exists init. split; [exact Hsame | ]. split; [ | exact Hdel].
  exact (Hname (or_introl eq_refl)).
Defined.
